(** * The cuML / scikit-learn benchmark notebooks

    A shallow embedding of the two notebooks of the repository,
    [cuML/classification.ipynb] and [cuML/linear_regression.ipynb].

    The notebooks are straight-line Python: every cell assigns literal
    constants, calls functions of external libraries (cuML, scikit-learn,
    cupy, joblib, time) and prints.  A cell is embedded as a computation
    in a state-and-error monad over the kernel: the namespace of global
    names, and the log of everything the cell asks of the outside world.
    The objects that the libraries return are opaque; each is named by
    the position in the log of the call that produced it.  What the
    libraries answered in the run stored in the notebook files is known
    only through the recorded output, which is modelled as the text the
    [print] statements render under an observation of the printed
    objects. *)

From stdpp Require Import base strings gmap list pretty.
From Stdlib Require Import ZArith QArith Qabs.

Local Open Scope Z_scope.
Local Open Scope string_scope.
Set Warnings "-register-all".

(** ** Values *)

(** A Python float as its shortest decimal representation:
    [mant / 10 ^ scale]. *)
Record dec := Dec { mant : Z; scale : nat }.

Inductive value :=
  | VNone
  | VBool (b : bool)
  | VInt (z : Z)
  | VFloat (d : dec)
  | VStr (s : string)
  | VLib (qualname : string)      (* a module, class or function of a library *)
  | VRes (h : nat)                (* the object returned by log entry [h] *)
  | VItem (h : nat) (i : nat)     (* component [i] of the tuple returned by [h] *)
  | VTuple (vs : list value)
  | VFmt (parts : list value).    (* an f-string over its evaluated fields *)

(** Equality of values, decided structurally. *)
Definition dec_eqb (c d : dec) : bool :=
  (mant c =? mant d)%Z && (scale c =? scale d)%nat.

Fixpoint value_eqb (a b : value) {struct a} : bool :=
  let fix all_eqb (xs ys : list value) {struct xs} : bool :=
    match xs, ys with
    | [], [] => true
    | x :: xs', y :: ys' => value_eqb x y && all_eqb xs' ys'
    | _, _ => false
    end in
  match a, b with
  | VNone, VNone => true
  | VBool x, VBool y => Bool.eqb x y
  | VInt x, VInt y => (x =? y)%Z
  | VFloat x, VFloat y => dec_eqb x y
  | VStr x, VStr y => String.eqb x y
  | VLib x, VLib y => String.eqb x y
  | VRes x, VRes y => (x =? y)%nat
  | VItem x i, VItem y j => (x =? y)%nat && (i =? j)%nat
  | VTuple xs, VTuple ys => all_eqb xs ys
  | VFmt xs, VFmt ys => all_eqb xs ys
  | _, _ => false
  end.

Inductive event :=
  | ECall (f : value) (args : list value) (kwargs : list (string * value))
  | EMethod (recv : value) (meth : string)
            (args : list value) (kwargs : list (string * value))
  | EAttr (obj : value) (attr : string)
  | ESub (a b : value)
  | EPrint (args : list value).

Inductive pyerr :=
  | NameError (x : string)
  | TypeError (what : string)
  | AttributeError (a : string).

Record kernel := Kernel { ns : gmap string value; trace : list event }.

Definition fresh_kernel : kernel := Kernel ∅ [].

(** ** The kernel monad *)

Definition M (A : Type) : Type := kernel → pyerr + A * kernel.

#[export] Instance M_ret : MRet M := λ A a k, inr (a, k).
#[export] Instance M_bind : MBind M := λ A B f m k,
  match m k with
  | inl e => inl e
  | inr (a, k') => f a k'
  end.

Definition raise {A} (e : pyerr) : M A := λ _, inl e.

Fixpoint eval_list {A} (es : list (M A)) : M (list A) :=
  match es with
  | [] => mret []
  | e :: es' => v ← e; vs ← eval_list es'; mret (v :: vs)
  end.

Definition eval_kwargs (kws : list (string * M value)) : M (list (string * value)) :=
  eval_list ((λ kw, v ← kw.2; mret (kw.1, v)) <$> kws).

(** Every request to the outside world is appended to the log; the object
    it returns is named by the position of the request.  The libraries
    are taken to answer: an exception raised inside one of them is not
    modelled. *)
Definition emit (e : event) : M value := λ k,
  inr (VRes (length (trace k)), Kernel (ns k) (trace k ++ [e])).

Definition bind_name (x : string) (v : value) : M unit := λ k,
  inr ((), Kernel (<[x := v]> (ns k)) (trace k)).

(** *** Expressions *)

Definition var (x : string) : M value := λ k,
  match ns k !! x with
  | Some v => inr (v, k)
  | None => inl (NameError x)
  end.

Definition int (z : Z) : M value := mret (VInt z).
Definition float (m : Z) (s : nat) : M value := mret (VFloat (Dec m s)).
Definition str (s : string) : M value := mret (VStr s).
Definition py_True : M value := mret (VBool true).

Definition dotted (q a : string) : string := q +:+ "." +:+ a.

(** [e.a]: resolved inside a library; a request on an opaque object.  None
    of the attributes that the notebooks read ([metrics], [time], [shape],
    [dtype], [fit], [predict]) exists on a number, a string, a tuple or
    [None]. *)
Definition attr (e : M value) (a : string) : M value :=
  v ← e;
  match v with
  | VLib q => mret (VLib (dotted q a))
  | VRes _ | VItem _ _ => emit (EAttr v a)
  | _ => raise (AttributeError a)
  end.

(** [f(args, kw = ...)]: callee first, then arguments left to right. *)
Definition call (f : M value) (args : list (M value))
    (kwargs : list (string * M value)) : M value :=
  fv ← f;
  vs ← eval_list args;
  ks ← eval_kwargs kwargs;
  match fv with
  | VLib _ | VRes _ | VItem _ _ => emit (ECall fv vs ks)
  | _ => raise (TypeError "call")
  end.

(** [e.m(args, kw = ...)]: the method is looked up on the object before
    the arguments are evaluated. *)
Definition callm (e : M value) (m : string) (args : list (M value))
    (kwargs : list (string * M value)) : M value :=
  v ← e;
  match v with
  | VLib _ | VRes _ | VItem _ _ => mret ()
  | _ => raise (AttributeError m)
  end;;
  vs ← eval_list args;
  ks ← eval_kwargs kwargs;
  match v with
  | VLib q => emit (ECall (VLib (dotted q m)) vs ks)
  | VRes _ | VItem _ _ => emit (EMethod v m vs ks)
  | _ => raise (AttributeError m)
  end.

(** [a - b] *)
Definition sub (a b : M value) : M value :=
  x ← a; y ← b;
  match x, y with
  | VInt m, VInt n => mret (VInt (m - n))
  | (VRes _ | VItem _ _), _ | _, (VRes _ | VItem _ _) => emit (ESub x y)
  | _, _ => raise (TypeError "-")
  end.

Definition tuple (es : list (M value)) : M value :=
  vs ← eval_list es; mret (VTuple vs).

Definition fstring (es : list (M value)) : M value :=
  vs ← eval_list es; mret (VFmt vs).

(** *** Statements *)

Definition assign (x : string) (e : M value) : M unit :=
  v ← e; bind_name x v.

Fixpoint bind_names (xs : list string) (vs : list value) : M unit :=
  match xs, vs with
  | [], [] => mret ()
  | x :: xs', v :: vs' => bind_name x v;; bind_names xs' vs'
  | _, _ => raise (TypeError "unpack")
  end.

(** [x0, x1, ... = e] *)
Definition unpack (xs : list string) (e : M value) : M unit :=
  v ← e;
  match v with
  | VTuple vs => bind_names xs vs
  | VRes h => bind_names xs (VItem h <$> seq 0 (length xs))
  | _ => raise (TypeError "unpack")
  end.

Definition expr (e : M value) : M unit := e;; mret ().

(** A name of the builtins: found there unless the kernel binds it. *)
Definition builtin (x : string) : M value := λ k,
  inr (default (VLib (dotted "builtins" x)) (ns k !! x), k).

(** [print(a, b, ...)]: the name [print] is looked up like any other
    callee.  The builtin writes to the output stream; whatever else the
    kernel has bound to the name is called, if it can be. *)
Definition print (args : list (M value)) : M unit :=
  fv ← builtin "print";
  vs ← eval_list args;
  match fv with
  | VLib q =>
      if decide (q = "builtins.print") then emit (EPrint vs)
      else emit (ECall fv vs [])
  | VRes _ | VItem _ _ => emit (ECall fv vs [])
  | _ => raise (TypeError "call")
  end;;
  mret ().

Definition import (m : string) : M unit := bind_name m (VLib m).
Definition import_as (m a : string) : M unit := bind_name a (VLib m).
Definition from_import (m : string) (names : list string) : M unit :=
  foldr (λ n rest, bind_name n (VLib (dotted m n));; rest) (mret ()) names.
Definition from_import_as (m n a : string) : M unit :=
  bind_name a (VLib (dotted m n)).

Definition nl : string := String (Ascii.ascii_of_nat 10) "".

(** ** Running a notebook *)

Definition run (p : M unit) : pyerr + kernel :=
  match p fresh_kernel with
  | inl e => inl e
  | inr (_, k) => inr k
  end.

(** The log of a program run in a fresh kernel (empty if it raises). *)
Definition log_of (p : M unit) : list event :=
  match run p with
  | inl _ => []
  | inr k => trace k
  end.

(** The namespace a program leaves behind. *)
Definition names_of (p : M unit) : gmap string value :=
  match run p with
  | inl _ => ∅
  | inr k => ns k
  end.

(** What [cell] adds to the log when it runs after [before]. *)
Definition cell_log (before cell : M unit) : list event :=
  drop (length (log_of before)) (log_of (before;; cell)).

(** ** What a run prints *)

(** Concrete Python values, as far as the notebooks print them. *)
Inductive pyval :=
  | PInt (z : Z)
  | PFloat (d : dec)
  | PStr (s : string)
  | PDtype (name : string)
  | PTuple (ps : list pyval).

Fixpoint zeros (n : nat) : string :=
  match n with
  | O => ""
  | S n' => "0" +:+ zeros n'
  end.

(** [repr] of a float given by its decimal representation. *)
Definition repr_dec (d : dec) : string :=
  let m := Z.abs (mant d) in
  let p := 10 ^ Z.of_nat (scale d) in
  let frac := pretty (m mod p) in
  (if (mant d <? 0)%Z then "-" else "") +:+ pretty (m / p) +:+ "." +:+
  match scale d with
  | O => "0"
  | _ => zeros (scale d - String.length frac)%nat +:+ frac
  end.

Fixpoint py_repr (p : pyval) : string :=
  match p with
  | PInt z => pretty z
  | PFloat d => repr_dec d
  | PStr s => "'" +:+ s +:+ "'"
  | PDtype n => "dtype('" +:+ n +:+ "')"
  | PTuple ps =>
      "(" +:+ String.concat ", " (py_repr <$> ps) +:+
      (if decide (length ps = 1%nat) then "," else "") +:+ ")"
  end.

Definition py_str (p : pyval) : string :=
  match p with
  | PStr s => s
  | PDtype n => n
  | _ => py_repr p
  end.

(** *** The output stream *)

(** What is written is known up to the objects of the libraries: a piece
    of output is text that the cell fixes, or the [str] or the [repr] of
    the object that some entry of the log returned. *)
Inductive piece :=
  | Lit (s : string)
  | Hole (as_repr : bool) (h : nat).

Fixpoint join_pieces (sep : string) (ps : list (list piece)) : list piece :=
  match ps with
  | [] => []
  | [p] => p
  | p :: ps' => (p ++ Lit sep :: join_pieces sep ps')%list
  end.

(** The pieces that [str(v)] or [repr(v)] is made of.  A tuple shows the
    [repr] of its components; an f-string is the [str] of its fields.
    What a library function or a component of a result would print is not
    modelled. *)
Fixpoint fmt (as_repr : bool) (v : value) : option (list piece) :=
  match v with
  | VNone => Some [Lit "None"]
  | VBool b => Some [Lit (if b then "True" else "False")]
  | VInt z => Some [Lit (pretty z)]
  | VFloat d => Some [Lit (repr_dec d)]
  | VStr s => Some [Lit (if as_repr then "'" +:+ s +:+ "'" else s)]
  | VRes h => Some [Hole as_repr h]
  | VTuple vs =>
      (λ ps, (Lit "(" :: join_pieces ", " ps ++
              [Lit (if decide (length vs = 1%nat) then ",)" else ")")])%list)
        <$> mapM (fmt true) vs
  | VFmt vs =>
      (λ ps, if as_repr then (Lit "'" :: concat ps ++ [Lit "'"])%list
             else concat ps)
        <$> mapM (fmt false) vs
  | VLib _ | VItem _ _ => None
  end.

(** [print(a, b, ...)] writes the [str] of its arguments, separated by
    spaces, and a newline. *)
Definition print_pieces (e : event) : option (list piece) :=
  match e with
  | EPrint args =>
      (λ ps, (join_pieces " " ps ++ [Lit nl])%list) <$> mapM (fmt false) args
  | _ => Some []
  end.

Definition template (tr : list event) : option (list piece) :=
  (λ ps, concat ps) <$> mapM print_pieces tr.

(** An observation tells what the objects that reach [print] were. *)
Definition text (as_repr : bool) (p : pyval) : string :=
  if as_repr then py_repr p else py_str p.

Fixpoint fill (ρ : gmap nat pyval) (ps : list piece) : option string :=
  match ps with
  | [] => Some ""
  | Lit s :: ps' => String.append s <$> fill ρ ps'
  | Hole r h :: ps' =>
      match ρ !! h with
      | Some p => String.append (text r p) <$> fill ρ ps'
      | None => None
      end
  end.

Definition stdout (ρ : gmap nat pyval) (tr : list event) : option string :=
  match template tr with
  | Some ps => fill ρ ps
  | None => None
  end.

(** *** Reading the output stream back *)

(** All the ways to cut a string in two. *)
Fixpoint splits (s : string) : list (string * string) :=
  ("", s) ::
  match s with
  | "" => []
  | String c s' => (λ ab, (String c ab.1, ab.2)) <$> splits s'
  end.

(** The rest of [s] after its prefix [p]. *)
Fixpoint strip (p s : string) : option string :=
  match p, s with
  | "", _ => Some s
  | String c p', String d s' => if decide (c = d) then strip p' s' else None
  | String _ _, "" => None
  end.

(** All the texts that the holes of a template can have had, for the
    output to be [out]: for each, the text of every hole in order. *)
Fixpoint solve (ps : list piece) (out : string)
    : list (list (nat * bool * string)) :=
  match ps with
  | [] => if decide (out = "") then [[]] else []
  | Lit s :: ps' =>
      match strip s out with
      | Some out' => solve ps' out'
      | None => []
      end
  | Hole r h :: ps' =>
      ab ← splits out; (λ a, (h, r, ab.1) :: a) <$> solve ps' ab.2
  end.

(** The observation gives the holes these texts. *)
Definition agrees (ρ : gmap nat pyval) (a : list (nat * bool * string)) : Prop :=
  Forall (λ hrt, text hrt.1.2 <$> ρ !! hrt.1.1 = Some hrt.2) a.

(** The number that a text spells, in the notation that [repr] uses for
    a float that needs no exponent: digits, a point, digits, after an
    optional sign. *)
Definition digit (c : Ascii.ascii) : option Z :=
  let n := Z.of_N (Ascii.N_of_ascii c) in
  if decide (48 <= n <= 57) then Some (n - 48) else None.

Fixpoint read_digits (acc : Z) (s : string) : option (Z * string) :=
  match s with
  | "" => Some (acc, "")
  | String c s' =>
      match digit c with
      | Some d => read_digits (10 * acc + d) s'
      | None => Some (acc, s)
      end
  end.

Definition read_dec (s : string) : option Q :=
  let '(neg, s1) := match s with
                    | String c s' =>
                        if decide (c = Ascii.ascii_of_nat 45) then (true, s')
                        else (false, s)
                    | "" => (false, s)
                    end in
  match s1 with
  | "" => None
  | String c _ =>
      match digit c, read_digits 0 s1 with
      | Some _, Some (i, String p s2) =>
          match s2 with
          | "" => None
          | String c2 _ =>
              match digit c2, read_digits 0 s2 with
              | Some _, Some (f, "") =>
                  let den := 10 ^ Z.of_nat (String.length s2) in
                  let m := i * den + f in
                  if decide (p = Ascii.ascii_of_nat 46) then
                    Some (Qmake (if neg then - m else m) (Z.to_pos den))
                  else None
              | _, _ => None
              end
          end
      | _, _ => None
      end
  end.

Definition lines (ls : list string) : string :=
  String.concat "" ((λ l, l +:+ nl) <$> ls).

(** ** Reading the log *)

Definition indexed (tr : list event) : list (nat * event) := imap pair tr.

(** The calls of the library function [q]: position, arguments, keywords. *)
Definition calls_to (q : string) (tr : list event)
    : list (nat * list value * list (string * value)) :=
  omap (λ ie,
    match ie.2 with
    | ECall (VLib q') args kws =>
        if decide (q' = q) then Some (ie.1, args, kws) else None
    | _ => None
    end) (indexed tr).

(** Keyword arguments reach the callee as a dictionary. *)
Definition dict (kws : list (string * value)) : gmap string value :=
  list_to_map kws.

(** The keyword arguments of the calls of [q]. *)
Definition params_of (q : string) (tr : list event) : list (gmap string value) :=
  (λ c, dict c.2) <$> calls_to q tr.

(** The calls of method [m], on whatever object: position, receiver,
    arguments. *)
Definition method_calls (m : string) (tr : list event)
    : list (nat * value * list value) :=
  omap (λ ie,
    match ie.2 with
    | EMethod recv m' args _ =>
        if decide (m' = m) then Some (ie.1, recv, args) else None
    | _ => None
    end) (indexed tr).

(** [v] is a reading of the clock: the result of a call of [time.time]. *)
Definition time_reading (tr : list event) (v : value) : option nat :=
  match v with
  | VRes h =>
      match tr !! h with
      | Some (ECall (VLib q) [] []) =>
          if decide (q = "time.time") then Some h else None
      | _ => None
      end
  | _ => None
  end.

(** An elapsed time is a difference [stop - start] of two readings. *)
Definition measurement (tr : list event) (e : event) : option (nat * nat) :=
  match e with
  | ESub a b =>
      stop ← time_reading tr a; start ← time_reading tr b; Some (start, stop)
  | _ => None
  end.

Definition measurements (tr : list event) : list (nat * nat) :=
  omap (measurement tr) tr.

(** What runs strictly between the two readings of a measurement. *)
Definition between (tr : list event) (m : nat * nat) : list event :=
  take (m.2 - S m.1) (drop (S m.1) tr).

Definition brackets (tr : list event) : list (list event) :=
  between tr <$> measurements tr.

Definition is_fit (e : event) : bool :=
  match e with
  | EMethod _ m _ _ => bool_decide (m = "fit")
  | _ => false
  end.

Definition is_clock (e : event) : bool :=
  match e with
  | ECall (VLib q) _ _ => bool_decide (q = "time.time")
  | _ => false
  end.

(** [v] is the host copy of [src]: the result of [asnumpy(src)]. *)
Definition host_copy_of (tr : list event) (v src : value) : bool :=
  match v with
  | VRes h =>
      match tr !! h with
      | Some (ECall (VLib q) [src'] []) =>
          bool_decide (q = "cupy.asnumpy") && value_eqb src' src
      | _ => false
      end
  | _ => false
  end.

(** The object of which [v] is the host copy, or [v] itself. *)
Definition unhost (tr : list event) (v : value) : value :=
  match v with
  | VRes h =>
      match tr !! h with
      | Some (ECall (VLib q) [src] []) =>
          if decide (q = "cupy.asnumpy") then src else v
      | _ => v
      end
  | _ => v
  end.

(** The positional arguments of the calls of [q], host copies replaced by
    the objects they copy. *)
Definition inputs_of (q : string) (tr : list event) : list (list value) :=
  (λ c : nat * list value * list (string * value), unhost tr <$> c.1.2)
    <$> calls_to q tr.

(** A computation only adds to the log. *)
Definition extends {A} (p : M A) : Prop :=
  ∀ k a k', p k = inr (a, k') → trace k `prefix_of` trace k'.

(** *** Evaluating a model *)

(** A call of a library class or function: the callee, its positional
    arguments and its keyword arguments, which reach it as a dictionary. *)
Record request := Request {
  callee : string;
  positional : list value;
  keywords : gmap string value
}.

Definition request_at (tr : list event) (h : nat) : option request :=
  match tr !! h with
  | Some (ECall (VLib q) args kws) => Some (Request q args (dict kws))
  | _ => None
  end.

(** The estimator a model stands for: what [fit] returned stands for the
    object that [fit] was called on. *)
Definition estimator_of (tr : list event) (m : value) : value :=
  match m with
  | VRes h =>
      match tr !! h with
      | Some (EMethod recv meth _ _) =>
          if decide (meth = "fit") then recv else m
      | _ => m
      end
  | _ => m
  end.

(** What [fit] was given, each time it was called on [est] among the
    first [n] entries. *)
Definition fitted_on (tr : list event) (est : value) (n : nat)
    : list (list value * list (string * value)) :=
  omap (λ e,
    match e with
    | EMethod recv m args kws =>
        if decide (m = "fit") then
          if value_eqb recv est then Some (args, kws) else None
        else None
    | _ => None
    end) (take n tr).

(** A score of a model on held-out data.  [train_test_split] returns
    the four parts that the cells unpack as [X_train, X_test, y_train,
    y_test]: parts 0 and 2 are the training subset, parts 1 and 3 the
    held-out one. *)
Record evaluation := Evaluation {
  scorer : string;          (* the scoring function *)
  estimator : request;      (* the call that constructed the estimator *)
  splitter : request;       (* the call that split the data *)
  split_at : nat;           (* its entry *)
  generator : request;      (* the call that generated the data *)
  generated_at : nat        (* its entry *)
}.

Definition part (i : nat) (v : value) : option nat :=
  match v with
  | VItem h j => if decide (j = i) then Some h else None
  | _ => None
  end.

Definition result (v : value) : option nat :=
  match v with
  | VRes h => Some h
  | _ => None
  end.

Definition values_eqb (xs ys : list value) : bool :=
  bool_decide (length xs = length ys) &&
  forallb (λ xy : value * value, value_eqb xy.1 xy.2) (zip xs ys).

(** A call [q(truth, preds)] of a library function. *)
Definition score_call (tr : list event) (pos : nat)
    : option (string * value * value) :=
  match tr !! pos with
  | Some (ECall (VLib q) [truth; preds] []) => Some (q, truth, preds)
  | _ => None
  end.

(** A call [m.predict(x)]. *)
Definition predict_call (tr : list event) (p : nat) : option (value * value) :=
  match tr !! p with
  | Some (EMethod m meth [x] []) =>
      if decide (meth = "predict") then Some (m, x) else None
  | _ => None
  end.

(** Entry [pos] is such a score when it is a call of a scoring function
    on part 3 of a split and on what [predict] returned for part 1 of the
    same split, asked of an estimator on which [fit] had been called once,
    with parts 0 and 2 of that split, the split being of the two
    components of one generated dataset.  Host copies stand for the
    objects they copy. *)
Definition evaluation_at (tr : list event) (pos : nat) : option evaluation :=
  qtp ← score_call tr pos;
  s ← part 3 (unhost tr qtp.1.2);
  p ← result (unhost tr qtp.2);
  mx ← predict_call tr p;
  c ← result (estimator_of tr mx.1);
  est ← request_at tr c;
  spl ← request_at tr s;
  g ← head (unhost tr <$> positional spl) ≫= part 0;
  gen ← request_at tr g;
  if value_eqb mx.2 (VItem s 1) &&
     values_eqb (unhost tr <$> positional spl) [VItem g 0; VItem g 1] &&
     match fitted_on tr (VRes c) p with
     | [(args, [])] => values_eqb args [VItem s 0; VItem s 2]
     | _ => false
     end
  then Some (Evaluation qtp.1.1 est spl s gen g)
  else None.


(** The text a run printed for the object that entry [h] returned, and
    the number it reads as. *)
Definition printed (ρ : gmap nat pyval) (h : nat) : option string :=
  py_str <$> ρ !! h.

Definition reported (ρ : gmap nat pyval) (h : nat) : option Q :=
  printed ρ h ≫= read_dec.

(** *** One protocol on two backends *)

(** A library name without the library: [cuml.metrics.r2_score] and
    [sklearn.metrics.r2_score] are both [metrics.r2_score]. *)
Fixpoint after_dot (s : string) : option string :=
  match s with
  | EmptyString => None
  | String c s' =>
      if decide (c = Ascii.ascii_of_nat 46) then Some s' else after_dot s'
  end.

Definition neutral (q : string) : string := default q (after_dot q).

(** Two evaluations differ in the backend alone when they score with the
    same function of either library, an estimator of the same class
    constructed with the same arguments, on a split made with the same
    arguments, of data that the same generator made from the same
    arguments. *)
Definition same_protocol (a b : evaluation) : Prop :=
  neutral (scorer a) = neutral (scorer b) ∧
  neutral (callee (estimator a)) = neutral (callee (estimator b)) ∧
  positional (estimator a) = positional (estimator b) ∧
  keywords (estimator a) = keywords (estimator b) ∧
  neutral (callee (splitter a)) = neutral (callee (splitter b)) ∧
  keywords (splitter a) = keywords (splitter b) ∧
  generator a = generator b.

(** *** What is done with an object *)

(** The entries that a value names. *)
Fixpoint handles (v : value) : list nat :=
  match v with
  | VRes h | VItem h _ => [h]
  | VTuple vs | VFmt vs => flat_map handles vs
  | VNone | VBool _ | VInt _ | VFloat _ | VStr _ | VLib _ => []
  end.

(** The values of a request. *)
Definition operands (e : event) : list value :=
  match e with
  | ECall f args kws => f :: (args ++ kws.*2)%list
  | EMethod recv _ args kws => recv :: (args ++ kws.*2)%list
  | EAttr obj _ => [obj]
  | ESub a b => [a; b]
  | EPrint args => args
  end.

(** The requests that involve the object of entry [h], in any position:
    as callee, receiver, argument or printed value. *)
Definition uses (tr : list event) (h : nat) : list (nat * event) :=
  List.filter (λ ie : nat * event,
    bool_decide (h ∈ flat_map handles (operands ie.2))) (indexed tr).

(** The names bound to the object of entry [h], or to a part of it. *)
Definition bound_to (names : gmap string value) (h : nat) : list string :=
  (λ xv : string * value, xv.1) <$>
  List.filter (λ xv : string * value, bool_decide (h ∈ handles xv.2))
    (map_to_list names).

(** ** cuML/classification.ipynb *)

Module Classification.

(** Cell 1. *)
Definition cell_imports : M unit :=
  import "cuml";;
  from_import "cupy" ["asnumpy"];;
  from_import "joblib" ["dump"; "load"].

(** Cell 2: random forest on the GPU. *)
Definition cell_cuml : M unit :=
  from_import "cuml.datasets.classification" ["make_classification"];;
  from_import "cuml.model_selection" ["train_test_split"];;
  from_import_as "cuml.ensemble" "RandomForestClassifier" "cuRF";;
  from_import "sklearn.metrics" ["accuracy_score"];;
  import "time";;
  assign "n_samples" (int 100000);;
  assign "n_features" (int 10);;
  assign "n_classes" (int 2);;
  assign "n_estimators" (int 25);;
  assign "max_depth" (int 10);;
  unpack ["X"; "y"]
    (call (var "make_classification") []
       [("n_classes", var "n_classes");
        ("n_features", var "n_features");
        ("n_samples", var "n_samples");
        ("random_state", int 0)]);;
  unpack ["X_train"; "X_test"; "y_train"; "y_test"]
    (call (var "train_test_split") [var "X"; var "y"]
       [("random_state", int 0)]);;
  assign "model"
    (call (var "cuRF") []
       [("max_depth", var "max_depth");
        ("n_estimators", var "n_estimators");
        ("random_state", int 0)]);;
  assign "start_time" (callm (var "time") "time" [] []);;
  assign "trained_RF"
    (callm (var "model") "fit" [var "X_train"; var "y_train"] []);;
  assign "end_time" (callm (var "time") "time" [] []);;
  assign "cuml_training_time" (sub (var "end_time") (var "start_time"));;
  assign "predictions" (callm (var "model") "predict" [var "X_test"] []);;
  assign "cu_score"
    (callm (attr (var "cuml") "metrics") "accuracy_score"
       [var "y_test"; var "predictions"] []);;
  assign "sk_score"
    (call (var "accuracy_score")
       [call (var "asnumpy") [var "y_test"] [];
        call (var "asnumpy") [var "predictions"] []] []);;
  print [str " cuml accuracy: "; var "cu_score"];;
  print [str " sklearn accuracy : "; var "sk_score"];;
  print [str "cuML Random Forest classification training time";
         var "cuml_training_time"; str "seconds"];;
  expr (call (var "dump") [var "trained_RF"; str "RF.model"] []);;
  assign "loaded_model" (call (var "load") [str "RF.model"] []).

(** Cell 3: random forest on the CPU.  The generation call of this cell
    is commented out in the notebook; [X] and [y] are those of cell 2. *)
Definition cell_sklearn : M unit :=
  from_import "cuml.datasets.classification" ["make_classification"];;
  from_import "sklearn.model_selection" ["train_test_split"];;
  from_import "sklearn.ensemble" ["RandomForestClassifier"];;
  from_import "sklearn.metrics" ["accuracy_score"];;
  import "time";;
  assign "n_samples" (int 100000);;
  assign "n_features" (int 10);;
  assign "n_classes" (int 2);;
  assign "n_estimators" (int 25);;
  assign "max_depth" (int 10);;
  unpack ["X_train"; "X_test"; "y_train"; "y_test"]
    (call (var "train_test_split")
       [call (var "asnumpy") [var "X"] [];
        call (var "asnumpy") [var "y"] []]
       [("random_state", int 0)]);;
  assign "sk_model"
    (call (var "RandomForestClassifier") []
       [("n_estimators", var "n_estimators");
        ("max_depth", var "max_depth");
        ("random_state", int 0)]);;
  assign "start_time" (callm (var "time") "time" [] []);;
  expr (callm (var "sk_model") "fit" [var "X_train"; var "y_train"] []);;
  assign "end_time" (callm (var "time") "time" [] []);;
  assign "sk_learning_time" (sub (var "end_time") (var "start_time"));;
  assign "predictions" (callm (var "sk_model") "predict" [var "X_test"] []);;
  assign "sk_score"
    (call (var "accuracy_score") [var "y_test"; var "predictions"] []);;
  print [str "scikit-learn's accuracy:"; var "sk_score"];;
  print [str "scikit-learn's training time:"; var "sk_learning_time";
         str "seconds"].

Definition notebook : M unit := cell_imports;; cell_cuml;; cell_sklearn.

Definition log : list event := log_of notebook.

Definition log_cuml : list event := cell_log cell_imports cell_cuml.
Definition log_sklearn : list event :=
  cell_log (cell_imports;; cell_cuml) cell_sklearn.

(** The output stream stored with cell 2 and with cell 3. *)
Definition stdout_cuml : string := lines
  [" cuml accuracy:  0.9949600100517273";
   " sklearn accuracy :  0.99496";
   "cuML Random Forest classification training time 0.12621426582336426 seconds"].

Definition stdout_sklearn : string := lines
  ["scikit-learn's accuracy: 0.9936";
   "scikit-learn's training time: 3.826442241668701 seconds"].

(** The numbers of the stored run, by the log entry that returned them. *)
Definition observed : gmap nat pyval := list_to_map
  [(6%nat, PFloat (Dec 12621426582336426 17));   (* end_time - start_time *)
   (8%nat, PFloat (Dec 9949600100517273 16));    (* cuml.metrics.accuracy_score *)
   (11%nat, PFloat (Dec 99496 5));               (* accuracy_score on host copies *)
   (24%nat, PFloat (Dec 3826442241668701 15));   (* end_time - start_time *)
   (26%nat, PFloat (Dec 9936 4))].               (* accuracy_score *)

Definition metrics : list string :=
  ["cuml.metrics.accuracy_score"; "sklearn.metrics.accuracy_score"].

End Classification.

(** ** cuML/linear_regression.ipynb *)

Module Regression.

(** Cell 1. *)
Definition cell_imports : M unit :=
  import "cuml";;
  from_import "cupy" ["asnumpy"];;
  from_import "joblib" ["dump"; "load"].

(** Cell 2. *)
Definition cell_imports_cuml : M unit :=
  from_import "cuml.datasets" ["make_regression"];;
  from_import "cuml.model_selection" ["train_test_split"];;
  from_import_as "cuml.linear_model" "LinearRegression" "cuLR";;
  from_import "sklearn.metrics" ["r2_score"].

(** Cell 3: linear regression on the GPU. *)
Definition cell_cuml : M unit :=
  import "time";;
  assign "n_samples" (int 100000);;
  assign "n_features" (int 256);;
  assign "n_info" (int 70);;
  unpack ["X_reg"; "y_reg"]
    (call (var "make_regression") []
       [("n_samples", var "n_samples");
        ("n_features", var "n_features");
        ("n_informative", var "n_info");
        ("random_state", int 123)]);;
  print [fstring
           [str "Shape of X_reg "; attr (var "X_reg") "shape";
            str " and y_reg "; attr (var "y_reg") "shape";
            str " and Type ";
            tuple [attr (var "X_reg") "dtype"; attr (var "y_reg") "dtype"];
            str (" " +:+ nl)]];;
  unpack ["X_reg_train"; "X_reg_test"; "y_reg_train"; "y_reg_test"]
    (call (var "train_test_split") [var "X_reg"; var "y_reg"]
       [("train_size", float 8 1);
        ("random_state", int 10)]);;
  assign "cuml_reg_model"
    (call (var "cuLR") []
       [("fit_intercept", py_True);
        ("normalize", py_True);
        ("algorithm", str "eig")]);;
  assign "start_time" (callm (var "time") "time" [] []);;
  assign "trained_LR"
    (callm (var "cuml_reg_model") "fit"
       [var "X_reg_train"; var "y_reg_train"] []);;
  assign "end_time" (callm (var "time") "time" [] []);;
  assign "cuml_training_time" (sub (var "end_time") (var "start_time"));;
  assign "cu_preds" (callm (var "trained_LR") "predict" [var "X_reg_test"] []);;
  assign "cu_r2"
    (callm (attr (var "cuml") "metrics") "r2_score"
       [var "y_reg_test"; var "cu_preds"] []);;
  assign "sk_r2"
    (call (var "r2_score")
       [call (var "asnumpy") [var "y_reg_test"] [];
        call (var "asnumpy") [var "cu_preds"] []] []);;
  print [str "cuml's r2 score : "; var "cu_r2"];;
  print [str "sklearn's r2 score : "; var "sk_r2"];;
  print [str "cuML's training time:"; var "cuml_training_time"; str "seconds"];;
  expr (call (var "dump") [var "trained_LR"; str "LR.model"] []).

(** Cell 4: linear regression on the CPU.  The cell imports no generator:
    [make_regression] is still the one that cell 2 imported from cuML. *)
Definition cell_sklearn : M unit :=
  from_import "sklearn.model_selection" ["train_test_split"];;
  from_import "sklearn.linear_model" ["LinearRegression"];;
  from_import "sklearn.metrics" ["r2_score"];;
  import_as "numpy" "np";;
  import "time";;
  assign "n_samples" (int 100000);;
  assign "n_features" (int 256);;
  assign "n_info" (int 70);;
  unpack ["X_reg"; "y_reg"]
    (call (var "make_regression") []
       [("n_samples", var "n_samples");
        ("n_features", var "n_features");
        ("n_informative", var "n_info");
        ("random_state", int 123)]);;
  unpack ["X_reg_train"; "X_reg_test"; "y_reg_train"; "y_reg_test"]
    (call (var "train_test_split")
       [call (var "asnumpy") [var "X_reg"] [];
        call (var "asnumpy") [var "y_reg"] []]
       [("train_size", float 8 1);
        ("random_state", int 10)]);;
  assign "start_time" (callm (var "time") "time" [] []);;
  assign "sk_reg_model" (call (var "LinearRegression") [] []);;
  expr (callm (var "sk_reg_model") "fit"
          [var "X_reg_train"; var "y_reg_train"] []);;
  assign "end_time" (callm (var "time") "time" [] []);;
  assign "sk_learning_time" (sub (var "end_time") (var "start_time"));;
  assign "sk_preds"
    (callm (var "sk_reg_model") "predict" [var "X_reg_test"] []);;
  assign "sk_r2" (call (var "r2_score") [var "y_reg_test"; var "sk_preds"] []);;
  print [str "scikit-learn's r2 score:"; var "sk_r2"];;
  print [str "scikit-learn's training time:"; var "sk_learning_time";
         str "seconds"].

(** Cell 5 is empty. *)
Definition cell_empty : M unit := mret ().

Definition notebook : M unit :=
  cell_imports;; cell_imports_cuml;; cell_cuml;; cell_sklearn;; cell_empty.

Definition log : list event := log_of notebook.

Definition log_cuml : list event :=
  cell_log (cell_imports;; cell_imports_cuml) cell_cuml.
Definition log_sklearn : list event :=
  cell_log (cell_imports;; cell_imports_cuml;; cell_cuml) cell_sklearn.

(** The output stream stored with cell 3 and with cell 4. *)
Definition stdout_cuml : string := lines
  ["Shape of X_reg (100000, 256) and y_reg (100000, 1) and Type (dtype('float32'), dtype('float32')) ";
   "";
   "cuml's r2 score :  1.0";
   "sklearn's r2 score :  0.999999999994969";
   "cuML's training time: 0.018104076385498047 seconds"].

Definition stdout_sklearn : string := lines
  ["scikit-learn's r2 score: 0.9999999999977812";
   "scikit-learn's training time: 0.5428879261016846 seconds"].

(** The objects of the stored run, by the log entry that returned them. *)
Definition observed : gmap nat pyval := list_to_map
  [(1%nat, PTuple [PInt 100000; PInt 256]);      (* X_reg.shape *)
   (2%nat, PTuple [PInt 100000; PInt 1]);        (* y_reg.shape *)
   (3%nat, PDtype "float32");                    (* X_reg.dtype *)
   (4%nat, PDtype "float32");                    (* y_reg.dtype *)
   (11%nat, PFloat (Dec 18104076385498047 18));  (* end_time - start_time *)
   (13%nat, PFloat (Dec 10 1));                  (* cuml.metrics.r2_score *)
   (16%nat, PFloat (Dec 999999999994969 15));    (* r2_score on host copies *)
   (29%nat, PFloat (Dec 5428879261016846 16));   (* end_time - start_time *)
   (31%nat, PFloat (Dec 9999999999977812 16))].  (* r2_score *)

Definition metrics : list string :=
  ["cuml.metrics.r2_score"; "sklearn.metrics.r2_score"].

End Regression.

(** ** Running a cell in a kernel that has been used *)

(** The kernel a program leaves behind (the fresh one if it raises). *)
Definition kernel_after (p : M unit) : kernel :=
  match run p with
  | inl _ => fresh_kernel
  | inr k => k
  end.

(** The kernels that the notebooks leave when run in a fresh kernel. *)
Definition classification_final : kernel := kernel_after Classification.notebook.
Definition regression_final : kernel := kernel_after Regression.notebook.

(** The kernel of the regression notebook before its scikit-learn cell. *)
Definition regression_after_cuml : kernel :=
  kernel_after (Regression.cell_imports;; Regression.cell_imports_cuml;;
                Regression.cell_cuml).

(** A cell that runs in a used kernel finds a longer log than in the run
    it is compared with, so the objects it creates get later names.
    [rebase σ b n] maps the names of the one run to those of the other:
    an object made before the cell started, among the first [b] entries,
    goes where [σ] says; the [i]-th object that the cell makes goes to
    entry [i + n]. *)
Definition rebase (σ : nat → nat) (b n : nat) (h : nat) : nat :=
  if decide (h < b)%nat then σ h else ((h - b) + n)%nat.

Fixpoint rename_value (ρ : nat → nat) (v : value) : value :=
  match v with
  | VRes h => VRes (ρ h)
  | VItem h i => VItem (ρ h) i
  | VTuple vs => VTuple (rename_value ρ <$> vs)
  | VFmt vs => VFmt (rename_value ρ <$> vs)
  | VNone | VBool _ | VInt _ | VFloat _ | VStr _ | VLib _ => v
  end.

Definition rename_kwargs (ρ : nat → nat) (kws : list (string * value))
    : list (string * value) :=
  (λ kw, (kw.1, rename_value ρ kw.2)) <$> kws.

Definition rename_event (ρ : nat → nat) (e : event) : event :=
  match e with
  | ECall f args kws =>
      ECall (rename_value ρ f) (rename_value ρ <$> args) (rename_kwargs ρ kws)
  | EMethod recv m args kws =>
      EMethod (rename_value ρ recv) m (rename_value ρ <$> args)
        (rename_kwargs ρ kws)
  | EAttr obj a => EAttr (rename_value ρ obj) a
  | ESub a b => ESub (rename_value ρ a) (rename_value ρ b)
  | EPrint args => EPrint (rename_value ρ <$> args)
  end.

(** Renaming, on what computations return. *)
Class Rename (A : Type) := rename : (nat → nat) → A → A.
#[export] Instance rename_unit : Rename unit := λ _ u, u.
#[export] Instance rename_val : Rename value := rename_value.
#[export] Instance rename_list {A} `{Rename A} : Rename (list A) :=
  λ ρ l, rename ρ <$> l.
#[export] Instance rename_kwarg : Rename (string * value) :=
  λ ρ kw, (kw.1, rename_value ρ kw.2).

(** Kernel [k2] is kernel [k1] seen from a used kernel: its log is [pre]
    followed by what [k1] logged after its first [b] entries, renamed, and
    the names in [D] are bound alike in both, up to renaming. *)
Record sim (σ : nat → nat) (b : nat) (pre : list event) (D : list string)
    (k1 k2 : kernel) : Prop := Sim {
  sim_base : (b ≤ length (trace k1))%nat;
  sim_names : ∀ x, x ∈ D →
    ns k2 !! x = rename_value (rebase σ b (length pre)) <$> ns k1 !! x;
  sim_trace :
    trace k2 = (pre ++ (rename_event (rebase σ b (length pre))
                          <$> drop b (trace k1)))%list
}.

(** [p2] does from [k2] what [p1] does from [k1], for all kernels so
    related: the same error, or the same result up to renaming. *)
Definition related_from {A} `{Rename A} (σ : nat → nat) (b : nat)
    (pre : list event) (D D' : list string) (k1 : kernel) (p1 p2 : M A) : Prop :=
  ∀ k2, sim σ b pre D k1 k2 →
    match p1 k1 with
    | inl e => p2 k2 = inl e
    | inr (a, k1') =>
        ∃ k2', p2 k2 = inr (rename (rebase σ b (length pre)) a, k2') ∧
               sim σ b pre D' k1' k2'
    end.

Definition related {A} `{Rename A} (σ : nat → nat) (b : nat)
    (pre : list event) (D D' : list string) (p1 p2 : M A) : Prop :=
  ∀ k1, related_from σ b pre D D' k1 p1 p2.

(** ** Where an object was made *)

(** The library function whose call made an object: for the result of a
    method, the one that made the object the method was called on. *)
Fixpoint maker (fuel : nat) (tr : list event) (v : value) : option string :=
  match fuel with
  | O => None
  | S fuel' =>
      match v with
      | VRes h | VItem h _ =>
          match tr !! h with
          | Some (ECall (VLib q) _ _) => Some q
          | Some (EMethod recv _ _ _) => maker fuel' tr recv
          | Some (EAttr obj _) => maker fuel' tr obj
          | _ => None
          end
      | _ => None
      end
  end.

Definition made_by (lib : string) (tr : list event) (v : value) : bool :=
  match maker (length tr) tr v with
  | Some q => String.prefix lib q
  | None => false
  end.

(** The objects that a request hands to scikit-learn: the arguments of a
    call of a function of [sklearn], or of a method of an object that
    [sklearn] made. *)
Definition given_to_sklearn (tr : list event) (e : event) : list value :=
  match e with
  | ECall (VLib q) args kws =>
      if String.prefix "sklearn." q then (args ++ kws.*2)%list else []
  | EMethod recv _ args kws =>
      if made_by "sklearn." tr recv then (args ++ kws.*2)%list else []
  | _ => []
  end.

(** An object is host data when it is a literal, a host copy that
    [asnumpy] made, or something that scikit-learn made. *)
Definition on_host (tr : list event) (v : value) : bool :=
  match v with
  | VRes _ | VItem _ _ =>
      match maker (length tr) tr v with
      | Some q => bool_decide (q = "cupy.asnumpy") || String.prefix "sklearn." q
      | None => false
      end
  | VNone | VBool _ | VInt _ | VFloat _ | VStr _ => true
  | VLib _ | VTuple _ | VFmt _ => false
  end.

(** Every object that a request of the log hands to scikit-learn is host
    data. *)
Definition sklearn_on_host (tr : list event) : bool :=
  forallb (λ e, forallb (on_host tr) (given_to_sklearn tr e)) tr.

(** The same, for the requests from entry [n] on. *)
Definition sklearn_on_host_from (n : nat) (tr : list event) : bool :=
  forallb (λ e, forallb (on_host tr) (given_to_sklearn tr e)) (drop n tr).

(** The entry a value names, if it names one. *)
Definition handle_of (v : value) : option nat :=
  match v with
  | VRes h | VItem h _ => Some h
  | _ => None
  end.

(** Every method is called on, and every attribute read from, an object
    made earlier in the log. *)
Definition well_scoped (tr : list event) : bool :=
  forallb (λ ie : nat * event,
    match ie.2 with
    | EMethod obj _ _ _ | EAttr obj _ =>
        match handle_of obj with
        | Some h => bool_decide (h < ie.1)%nat
        | None => true
        end
    | _ => true
    end) (indexed tr).

(** * Properties *)

(** ** Equality of values *)

Lemma value_nested_ind (P : value → Prop) :
  P VNone → (∀ b, P (VBool b)) → (∀ z, P (VInt z)) → (∀ d, P (VFloat d)) →
  (∀ s, P (VStr s)) → (∀ q, P (VLib q)) → (∀ h, P (VRes h)) →
  (∀ h i, P (VItem h i)) →
  (∀ vs, Forall P vs → P (VTuple vs)) →
  (∀ vs, Forall P vs → P (VFmt vs)) →
  ∀ v, P v.
Proof.
  intros HN HB HI HD HS HL HR HIt HT HF.
  fix IH 1. intros [ | b | z | d | s | q | h | h i | vs | vs].
  1-8: clear IH; auto.
  - apply HT. induction vs as [|v vs IHvs]; constructor; [apply IH | exact IHvs].
  - apply HF. induction vs as [|v vs IHvs]; constructor; [apply IH | exact IHvs].
Qed.

Lemma dec_eqb_eq (c d : dec) : dec_eqb c d = true ↔ c = d.
Proof.
  destruct c as [m s], d as [m' s']. unfold dec_eqb; simpl.
  rewrite andb_true_iff, Z.eqb_eq, Nat.eqb_eq.
  split; [intros [-> ->]; reflexivity | intros [= -> ->]; auto].
Qed.

Lemma value_eqb_eq (a b : value) : value_eqb a b = true ↔ a = b.
Proof.
  revert b. induction a as [ | x | x | x | x | x | x | x i | xs IH | xs IH]
    using value_nested_ind; intros [ | y | y | y | y | y | y | y j | ys | ys];
    simpl; try (split; [discriminate | intros [=]]).
  - tauto.
  - rewrite Bool.eqb_true_iff. split; [intros -> | intros [=]]; auto.
  - rewrite Z.eqb_eq. split; [intros -> | intros [=]]; auto.
  - rewrite dec_eqb_eq. split; [intros -> | intros [=]]; auto.
  - rewrite String.eqb_eq. split; [intros -> | intros [=]]; auto.
  - rewrite String.eqb_eq. split; [intros -> | intros [=]]; auto.
  - rewrite Nat.eqb_eq. split; [intros -> | intros [=]]; auto.
  - rewrite andb_true_iff, !Nat.eqb_eq.
    split; [intros [-> ->] | intros [= -> ->]]; auto.
  - revert ys. induction IH as [|x xs Hx _ IHxs]; intros [|y ys];
      try (split; [discriminate | intros [=]]); [tauto|].
    rewrite andb_true_iff, Hx.
    specialize (IHxs ys). split.
    + intros [-> H]. apply IHxs in H. congruence.
    + intros [= -> ->]. split; [reflexivity | apply IHxs; reflexivity].
  - revert ys. induction IH as [|x xs Hx _ IHxs]; intros [|y ys];
      try (split; [discriminate | intros [=]]); [tauto|].
    rewrite andb_true_iff, Hx.
    specialize (IHxs ys). split.
    + intros [-> H]. apply IHxs in H. congruence.
    + intros [= -> ->]. split; [reflexivity | apply IHxs; reflexivity].
Qed.

(** ** The log only grows *)

Lemma extends_ret {A} (a : A) : extends (mret a : M A).
Proof. intros k a' k' [= <- <-]. reflexivity. Qed.

Lemma extends_raise {A} (e : pyerr) : extends (raise e : M A).
Proof. intros k a k' [=]. Qed.

Lemma extends_bind {A B} (m : M A) (f : A → M B) :
  extends m → (∀ a, extends (f a)) → extends (m ≫= f).
Proof.
  intros Hm Hf k b k'. unfold mbind, M_bind.
  destruct (m k) as [e | [a k1]] eqn:E; [discriminate|].
  intros H. etrans; [eapply Hm, E | eapply Hf, H].
Qed.

Lemma extends_emit (e : event) : extends (emit e).
Proof. intros k a k' [= <- <-]. simpl. by apply prefix_app_r. Qed.

Lemma extends_bind_name (x : string) (v : value) : extends (bind_name x v).
Proof. intros k a k' [= <- <-]. reflexivity. Qed.

Lemma extends_var (x : string) : extends (var x).
Proof.
  intros k a k'. unfold var. destruct (ns k !! x); [|discriminate].
  intros [= <- <-]. reflexivity.
Qed.

Lemma extends_eval_list {A} (es : list (M A)) :
  Forall extends es → extends (eval_list es).
Proof.
  induction 1 as [|e es He _ IH]; simpl.
  - apply extends_ret.
  - apply extends_bind; [exact He|]. intros v.
    apply extends_bind; [exact IH|]. intros vs. apply extends_ret.
Qed.

Lemma extends_eval_kwargs (kws : list (string * M value)) :
  Forall (λ kw, extends kw.2) kws → extends (eval_kwargs kws).
Proof.
  intros H. apply extends_eval_list. rewrite Forall_fmap.
  eapply Forall_impl; [exact H|]. intros [x e] He; simpl in *.
  apply extends_bind; [exact He|]. intros v. apply extends_ret.
Qed.

Ltac extends_leaf :=
  first [apply extends_ret | apply extends_raise | apply extends_emit].

Lemma extends_attr (e : M value) (a : string) : extends e → extends (attr e a).
Proof.
  intros He. apply extends_bind; [exact He|].
  intros []; extends_leaf.
Qed.

Lemma extends_call f args kwargs :
  extends f → Forall extends args → Forall (λ kw, extends kw.2) kwargs →
  extends (call f args kwargs).
Proof.
  intros Hf Ha Hk. apply extends_bind; [exact Hf|]. intros fv.
  apply extends_bind; [by apply extends_eval_list|]. intros vs.
  apply extends_bind; [by apply extends_eval_kwargs|]. intros ks.
  destruct fv; extends_leaf.
Qed.

Lemma extends_callm e m args kwargs :
  extends e → Forall extends args → Forall (λ kw, extends kw.2) kwargs →
  extends (callm e m args kwargs).
Proof.
  intros He Ha Hk. apply extends_bind; [exact He|]. intros v.
  apply extends_bind; [destruct v; extends_leaf|]. intros _.
  apply extends_bind; [by apply extends_eval_list|]. intros vs.
  apply extends_bind; [by apply extends_eval_kwargs|]. intros ks.
  destruct v; extends_leaf.
Qed.

Lemma extends_sub a b : extends a → extends b → extends (sub a b).
Proof.
  intros Ha Hb. apply extends_bind; [exact Ha|]. intros x.
  apply extends_bind; [exact Hb|]. intros y.
  destruct x, y; extends_leaf.
Qed.

Lemma extends_tuple es : Forall extends es → extends (tuple es).
Proof.
  intros H. apply extends_bind; [by apply extends_eval_list|].
  intros vs. apply extends_ret.
Qed.

Lemma extends_fstring es : Forall extends es → extends (fstring es).
Proof.
  intros H. apply extends_bind; [by apply extends_eval_list|].
  intros vs. apply extends_ret.
Qed.

Lemma extends_assign x e : extends e → extends (assign x e).
Proof.
  intros H. apply extends_bind; [exact H|]. intros v. apply extends_bind_name.
Qed.

Lemma extends_bind_names xs vs : extends (bind_names xs vs).
Proof.
  revert vs. induction xs as [|x xs IH]; intros [|v vs]; simpl;
    try extends_leaf.
  apply extends_bind; [apply extends_bind_name | intros _; apply IH].
Qed.

Lemma extends_unpack xs e : extends e → extends (unpack xs e).
Proof.
  intros H. apply extends_bind; [exact H|].
  intros []; first [extends_leaf | apply extends_bind_names].
Qed.

Lemma extends_expr e : extends e → extends (expr e).
Proof.
  intros H. apply extends_bind; [exact H|]. intros _. apply extends_ret.
Qed.

Lemma extends_print args : Forall extends args → extends (print args).
Proof.
  intros H. apply extends_bind.
  { intros k a k' [= <- <-]. reflexivity. }
  intros fv. apply extends_bind; [by apply extends_eval_list|]. intros vs.
  apply extends_bind; [|intros _; apply extends_ret].
  destruct fv; try extends_leaf. case_decide; extends_leaf.
Qed.

Lemma extends_from_import m names : extends (from_import m names).
Proof.
  induction names as [|n names IH]; simpl; [apply extends_ret|].
  apply extends_bind; [apply extends_bind_name | intros _; exact IH].
Qed.

Create HintDb extends.

#[export] Hint Resolve
  extends_var extends_attr extends_call extends_callm extends_sub
  extends_tuple extends_fstring extends_assign extends_unpack extends_expr
  extends_print extends_from_import extends_bind_name
  Forall_nil_2 Forall_cons_2 : extends.

#[export] Hint Extern 1 (extends (int _)) => apply extends_ret : extends.
#[export] Hint Extern 1 (extends (float _ _)) => apply extends_ret : extends.
#[export] Hint Extern 1 (extends (str _)) => apply extends_ret : extends.
#[export] Hint Extern 1 (extends py_True) => apply extends_ret : extends.
#[export] Hint Extern 1 (extends (import _)) => apply extends_bind_name : extends.
#[export] Hint Extern 1 (extends (import_as _ _)) =>
  apply extends_bind_name : extends.
#[export] Hint Extern 1 (extends (from_import_as _ _ _)) =>
  apply extends_bind_name : extends.
#[export] Hint Extern 1 (extends (mret _)) => apply extends_ret : extends.
#[export] Hint Extern 1 (extends (_ ≫= _)) =>
  apply extends_bind; [|intros ?] : extends.
#[export] Hint Extern 1 (extends (snd _)) => simpl : extends.

(** Every cell of both notebooks only adds to the log. *)
Lemma classification_cells_extend :
  extends Classification.cell_imports ∧ extends Classification.cell_cuml ∧
  extends Classification.cell_sklearn.
Proof.
  unfold Classification.cell_imports, Classification.cell_cuml,
    Classification.cell_sklearn.
  repeat split; auto 200 with extends.
Qed.

Lemma regression_cells_extend :
  extends Regression.cell_imports ∧ extends Regression.cell_imports_cuml ∧
  extends Regression.cell_cuml ∧ extends Regression.cell_sklearn ∧
  extends Regression.cell_empty.
Proof.
  unfold Regression.cell_imports, Regression.cell_imports_cuml,
    Regression.cell_cuml, Regression.cell_sklearn, Regression.cell_empty.
  repeat split; auto 200 with extends.
Qed.

(** An object keeps its name: what a computation logs leaves the earlier
    entries in place. *)
Lemma extends_lookup {A} (p : M A) k a k' h e :
  extends p → p k = inr (a, k') →
  trace k !! h = Some e → trace k' !! h = Some e.
Proof. intros Hp Hr Hh. eapply prefix_lookup_Some; [exact Hh | exact (Hp _ _ _ Hr)]. Qed.

(** The object that a request returns is named by the entry of the request. *)
Lemma emit_lookup (e : event) k v k' :
  emit e k = inr (v, k') →
  v = VRes (length (trace k)) ∧ trace k' !! length (trace k) = Some e.
Proof.
  intros [= <- <-]. split; [reflexivity|]. simpl.
  rewrite lookup_app_r by lia. by rewrite Nat.sub_diag.
Qed.

(** The log of a notebook is the log of its first cells followed by what
    the last cell adds. *)
Lemma log_of_seq (before cell : M unit) k :
  extends cell → run (before;; cell) = inr k →
  log_of (before;; cell) = (log_of before ++ cell_log before cell)%list.
Proof.
  intros Hc. unfold cell_log, log_of, run, mbind, M_bind.
  destruct (before fresh_kernel) as [e | [[] k1]]; [discriminate|].
  destruct (cell k1) as [e | [[] k2]] eqn:E; [discriminate|]. intros _.
  destruct (Hc _ _ _ E) as [l ->].
  by rewrite drop_app_length.
Qed.

(** ** The notebooks run *)

Lemma classification_runs : ∃ k, run Classification.notebook = inr k.
Proof. eexists. vm_compute. reflexivity. Qed.

Lemma regression_runs : ∃ k, run Regression.notebook = inr k.
Proof. eexists. vm_compute. reflexivity. Qed.

(** Cells run one after the other: how the sequence is bracketed does not
    matter. *)
Lemma run_assoc (a b c : M unit) : run ((a;; b);; c) = run (a;; (b;; c)).
Proof.
  unfold run, mbind, M_bind.
  destruct (a fresh_kernel) as [e | [[] k1]]; [reflexivity|].
  destruct (b k1) as [e | [[] k2]]; reflexivity.
Qed.

Lemma log_of_assoc (a b c : M unit) :
  log_of ((a;; b);; c) = log_of (a;; (b;; c)).
Proof. unfold log_of. by rewrite run_assoc. Qed.

(** ** The stored outputs *)

Ltac by_computation := vm_compute; reflexivity.

(** Under the observation of the stored run, each code cell prints
    exactly the output stream stored with it. *)
Lemma classification_stdout :
  stdout Classification.observed Classification.log_cuml
    = Some Classification.stdout_cuml ∧
  stdout Classification.observed Classification.log_sklearn
    = Some Classification.stdout_sklearn.
Proof. split; by_computation. Qed.

Lemma regression_stdout :
  stdout Regression.observed Regression.log_cuml
    = Some Regression.stdout_cuml ∧
  stdout Regression.observed Regression.log_sklearn
    = Some Regression.stdout_sklearn.
Proof. split; by_computation. Qed.

(** ** Reading the output stream back *)

Lemma splits_app (a b : string) : (a, b) ∈ splits (a +:+ b).
Proof.
  induction a as [|c a IH].
  - destruct b; apply list_elem_of_here.
  - change (String c a +:+ b) with (String c (a +:+ b)). simpl.
    apply list_elem_of_further.
    apply (list_elem_of_fmap_2 (λ ab, (String c ab.1, ab.2)) _ (a, b)).
    exact IH.
Qed.

Lemma strip_app (p x : string) : strip p (p +:+ x) = Some x.
Proof.
  induction p as [|c p IH]; [by destruct x|].
  change (String c p +:+ x) with (String c (p +:+ x)). simpl.
  by rewrite decide_True.
Qed.

(** Whatever the observation, if it fills the template to [out] then
    [solve] lists the texts it gives the holes. *)
Lemma fill_solve (ρ : gmap nat pyval) (ps : list piece) (out : string) :
  fill ρ ps = Some out → ∃ a, a ∈ solve ps out ∧ agrees ρ a.
Proof.
  revert out. induction ps as [|[s | r h] ps IH]; intros out; simpl.
  - intros [= <-]. exists []. split; [apply list_elem_of_here | constructor].
  - destruct (fill ρ ps) as [out'|]; [|discriminate]. intros [= <-].
    rewrite strip_app. by apply IH.
  - destruct (ρ !! h) as [p|] eqn:Hp; [|discriminate].
    destruct (fill ρ ps) as [out'|]; [|discriminate]. intros [= <-].
    destruct (IH out' eq_refl) as (a & Ha & Hag).
    exists ((h, r, text r p) :: a). split.
    + apply list_elem_of_bind. exists (text r p, out').
      split; [|apply splits_app].
      by apply (list_elem_of_fmap_2 (λ a, (h, r, text r p) :: a)).
    + constructor; [simpl; by rewrite Hp | exact Hag].
Qed.

(** So when [solve] finds one way only, that is what was printed. *)
Lemma stdout_solved (ρ : gmap nat pyval) (tr : list event) ps out a :
  template tr = Some ps → solve ps out = [a] →
  stdout ρ tr = Some out → agrees ρ a.
Proof.
  intros Ht Hs. unfold stdout. rewrite Ht. intros Hf.
  destruct (fill_solve ρ ps out Hf) as (a' & Ha & Hag).
  rewrite Hs in Ha. by apply list_elem_of_singleton in Ha as ->.
Qed.

(** One hypothesis for each printed object: its [str], or its [repr]
    inside a tuple. *)
Ltac split_agrees H :=
  lazymatch type of H with
  | agrees _ [] => clear H
  | agrees ?ρ ((?h, false, ?t) :: ?a) =>
      let Hp := fresh "Hp" in
      apply Forall_cons in H as [Hp H];
      change (printed ρ h = Some t) in Hp;
      change (agrees ρ a) in H;
      split_agrees H
  | agrees ?ρ ((?h, true, ?t) :: ?a) =>
      let Hp := fresh "Hp" in
      apply Forall_cons in H as [Hp H];
      change (py_repr <$> ρ !! h = Some t) in Hp;
      change (agrees ρ a) in H;
      split_agrees H
  end.

(** From a stored output to the texts printed for the objects. *)
Ltac read_output H :=
  lazymatch type of H with
  | stdout ?ρ ?tr = Some ?out =>
      let ps := eval vm_compute in (template tr) in
      lazymatch ps with
      | Some ?ps =>
          let a := eval vm_compute in (solve ps out) in
          lazymatch a with
          | [?a] =>
              let Ha := fresh "Ha" in
              assert (agrees ρ a) as Ha
                by (apply (stdout_solved ρ tr ps out a);
                    [by_computation | by_computation | exact H]);
              split_agrees Ha
          end
      end
  end.

(** ** The end-to-end scenarios *)







(** ** Timing *)

(** C7, on the code: every elapsed time is the difference of two clock
    readings with exactly one [fit] and no clock reading between them, and
    the four timed regions follow one another.  Three of them hold the
    [fit] alone; the one of the scikit-learn cell of the regression
    notebook also constructs the estimator. *)
Theorem C7_timed_regions :
  measurements Classification.log = [(3, 5); (21, 23)]%nat ∧
  measurements Regression.log = [(8, 10); (25, 28)]%nat ∧
  brackets Classification.log
    = [[EMethod (VRes 2) "fit" [VItem 1 0; VItem 1 2] []];
       [EMethod (VRes 20) "fit" [VItem 19 0; VItem 19 2] []]] ∧
  brackets Regression.log
    = [[EMethod (VRes 7) "fit" [VItem 6 0; VItem 6 2] []];
       [ECall (VLib "sklearn.linear_model.LinearRegression") [] [];
        EMethod (VRes 26) "fit" [VItem 24 0; VItem 24 2] []]] ∧
  Forall (λ b, length (List.filter is_fit b) = 1%nat ∧
               List.filter is_clock b = [])
    (brackets Classification.log ++ brackets Regression.log)%list ∧
  ¬ Forall (λ b, length b = 1%nat) (brackets Regression.log).
Proof.
  repeat (split; [by_computation|]).
  assert (brackets Regression.log
    = [[EMethod (VRes 7) "fit" [VItem 6 0; VItem 6 2] []];
       [ECall (VLib "sklearn.linear_model.LinearRegression") [] [];
        EMethod (VRes 26) "fit" [VItem 24 0; VItem 24 2] []]]) as Hr
    by by_computation.
  split.
  - rewrite Hr.
    assert (brackets Classification.log
      = [[EMethod (VRes 2) "fit" [VItem 1 0; VItem 1 2] []];
         [EMethod (VRes 20) "fit" [VItem 19 0; VItem 19 2] []]]) as ->
      by by_computation.
    repeat constructor.
  - rewrite Hr. intros H. inversion_clear H as [|? ? _ H'].
    inversion_clear H' as [|? ? H _]. discriminate.
Qed.

(** ** Both runs of a notebook work on one configuration *)

(** C9, as stated, fails: in the regression notebook the two Trainers are
    not configured alike.  The accelerated estimator is constructed with
    [fit_intercept = True, normalize = True, algorithm = 'eig'], the
    reference one with no argument at all, so the two evaluations differ
    in more than the backend. *)
Lemma C9_counterexample :
  ∃ a r,
    evaluation_at Regression.log 16 = Some a ∧
    evaluation_at Regression.log 31 = Some r ∧
    estimator a
      = Request "cuml.linear_model.LinearRegression" []
          (dict [("fit_intercept", VBool true); ("normalize", VBool true);
                 ("algorithm", VStr "eig")]) ∧
    estimator r = Request "sklearn.linear_model.LinearRegression" [] ∅ ∧
    keywords (estimator a) ≠ keywords (estimator r) ∧
    ¬ same_protocol a r.
Proof.
  assert (∀ m m' : gmap string value,
            m !! "normalize" = Some (VBool true) → m' !! "normalize" = None →
            m ≠ m') as Hne by (intros m m' H H' E; congruence).
  exists (Evaluation "sklearn.metrics.r2_score"
            (Request "cuml.linear_model.LinearRegression" []
               (dict [("fit_intercept", VBool true); ("normalize", VBool true);
                      ("algorithm", VStr "eig")]))
            (Request "cuml.model_selection.train_test_split"
               [VItem 0 0; VItem 0 1]
               (dict [("train_size", VFloat (Dec 8 1));
                      ("random_state", VInt 10)]))
            6
            (Request "cuml.datasets.make_regression" []
               (dict [("n_samples", VInt 100000); ("n_features", VInt 256);
                      ("n_informative", VInt 70); ("random_state", VInt 123)]))
            0),
         (Evaluation "sklearn.metrics.r2_score"
            (Request "sklearn.linear_model.LinearRegression" [] ∅)
            (Request "sklearn.model_selection.train_test_split"
               [VRes 22; VRes 23]
               (dict [("train_size", VFloat (Dec 8 1));
                      ("random_state", VInt 10)]))
            24
            (Request "cuml.datasets.make_regression" []
               (dict [("n_samples", VInt 100000); ("n_features", VInt 256);
                      ("n_informative", VInt 70); ("random_state", VInt 123)]))
            21).
  split; [by_computation|]. split; [by_computation|].
  split; [reflexivity|]. split; [reflexivity|].
  split.
  - apply Hne; by_computation.
  - intros (_ & _ & _ & E & _). revert E. apply Hne; by_computation.
Qed.

(** C9, amended: in each notebook the two code cells bind the same values
    to the configuration names and pass the same keyword arguments to the
    splitters.  The classification notebook calls the generator once: the
    scikit-learn cell splits host copies of the [X] and [y] of the cuML
    cell, and cannot run without it; the two random forests are
    constructed with the same arguments, and the evaluation of the
    reference model differs from either evaluation of the accelerated
    model in the backend alone.  The regression notebook calls the
    generator twice, both times cuML's [make_regression] with the same
    arguments and seed 123, and each cell splits what its own call
    returned, with the same arguments; but there the Trainers are not
    configured alike, cuML's [LinearRegression] with [fit_intercept],
    [normalize] and [algorithm = 'eig'], scikit-learn's with no argument,
    so the two evaluations differ in more than the backend. *)
Theorem C9_same_configuration :
  (* classification: the names *)
  (λ x, names_of (Classification.cell_imports;; Classification.cell_cuml) !! x)
    <$> ["n_samples"; "n_features"; "n_classes"; "n_estimators"; "max_depth"]
    = Some <$> [VInt 100000; VInt 10; VInt 2; VInt 25; VInt 10] ∧
  (λ x, names_of Classification.notebook !! x)
    <$> ["n_samples"; "n_features"; "n_classes"; "n_estimators"; "max_depth"]
    = Some <$> [VInt 100000; VInt 10; VInt 2; VInt 25; VInt 10] ∧
  (* classification: the estimators and the splitters *)
  params_of "cuml.ensemble.RandomForestClassifier" Classification.log
    = [dict [("n_estimators", VInt 25); ("max_depth", VInt 10);
             ("random_state", VInt 0)]] ∧
  params_of "sklearn.ensemble.RandomForestClassifier" Classification.log
    = [dict [("n_estimators", VInt 25); ("max_depth", VInt 10);
             ("random_state", VInt 0)]] ∧
  params_of "cuml.model_selection.train_test_split" Classification.log
    = [dict [("random_state", VInt 0)]] ∧
  params_of "sklearn.model_selection.train_test_split" Classification.log
    = [dict [("random_state", VInt 0)]] ∧
  (* classification: one dataset *)
  calls_to "cuml.datasets.classification.make_classification"
    Classification.log
    = [(0%nat, [], [("n_classes", VInt 2); ("n_features", VInt 10);
                    ("n_samples", VInt 100000); ("random_state", VInt 0)])] ∧
  inputs_of "cuml.model_selection.train_test_split" Classification.log
    = [[VItem 0 0; VItem 0 1]] ∧
  inputs_of "sklearn.model_selection.train_test_split" Classification.log
    = [[VItem 0 0; VItem 0 1]] ∧
  run (Classification.cell_imports;; Classification.cell_sklearn)
    = inl (NameError "X") ∧
  (* regression: the names *)
  (λ x, names_of (Regression.cell_imports;; Regression.cell_imports_cuml;;
                  Regression.cell_cuml) !! x)
    <$> ["n_samples"; "n_features"; "n_info"]
    = Some <$> [VInt 100000; VInt 256; VInt 70] ∧
  (λ x, names_of Regression.notebook !! x)
    <$> ["n_samples"; "n_features"; "n_info"]
    = Some <$> [VInt 100000; VInt 256; VInt 70] ∧
  (* regression: the splitters *)
  params_of "cuml.model_selection.train_test_split" Regression.log
    = [dict [("train_size", VFloat (Dec 8 1)); ("random_state", VInt 10)]] ∧
  params_of "sklearn.model_selection.train_test_split" Regression.log
    = [dict [("train_size", VFloat (Dec 8 1)); ("random_state", VInt 10)]] ∧
  (* regression: the same generator, the same arguments, twice *)
  names_of Regression.notebook !! "make_regression"
    = Some (VLib "cuml.datasets.make_regression") ∧
  calls_to "cuml.datasets.make_regression" Regression.log
    = [(0%nat, [], [("n_samples", VInt 100000); ("n_features", VInt 256);
                    ("n_informative", VInt 70); ("random_state", VInt 123)]);
       (21%nat, [], [("n_samples", VInt 100000); ("n_features", VInt 256);
                     ("n_informative", VInt 70); ("random_state", VInt 123)])] ∧
  inputs_of "cuml.model_selection.train_test_split" Regression.log
    = [[VItem 0 0; VItem 0 1]] ∧
  inputs_of "sklearn.model_selection.train_test_split" Regression.log
    = [[VItem 21 0; VItem 21 1]] ∧
  (* classification: the evaluation of the reference model and those of
     the accelerated model follow one protocol, on one dataset *)
  (∃ a r, evaluation_at Classification.log 8 = Some a ∧
          evaluation_at Classification.log 26 = Some r ∧
          same_protocol a r ∧ generated_at a = generated_at r) ∧
  (∃ a r, evaluation_at Classification.log 11 = Some a ∧
          evaluation_at Classification.log 26 = Some r ∧
          same_protocol a r ∧ generated_at a = generated_at r ∧
          scorer a = scorer r) ∧
  (* regression: the estimators *)
  params_of "cuml.linear_model.LinearRegression" Regression.log
    = [dict [("fit_intercept", VBool true); ("normalize", VBool true);
             ("algorithm", VStr "eig")]] ∧
  params_of "sklearn.linear_model.LinearRegression" Regression.log = [∅] ∧
  (* regression: the same generator, splitter and scoring function, on
     data of two calls, for estimators that are configured differently *)
  (∃ a r, evaluation_at Regression.log 16 = Some a ∧
          evaluation_at Regression.log 31 = Some r ∧
          scorer a = scorer r ∧
          generator a = generator r ∧
          generated_at a = 0%nat ∧ generated_at r = 21%nat ∧
          neutral (callee (splitter a)) = neutral (callee (splitter r)) ∧
          keywords (splitter a) = keywords (splitter r) ∧
          neutral (callee (estimator a)) = neutral (callee (estimator r)) ∧
          keywords (estimator a) ≠ keywords (estimator r) ∧
          ¬ same_protocol a r).
Proof.
  assert (∀ m m' : gmap string value,
            m !! "normalize" = Some (VBool true) → m' !! "normalize" = None →
            m ≠ m') as Hne by (intros m m' H H' E; congruence).
  repeat (split; [by_computation|]).
  split; [|split].
  - exists (Evaluation "cuml.metrics.accuracy_score"
         (Request "cuml.ensemble.RandomForestClassifier" []
            (dict [("n_estimators", VInt 25); ("max_depth", VInt 10);
                   ("random_state", VInt 0)]))
         (Request "cuml.model_selection.train_test_split" [VItem 0 0; VItem 0 1]
            (dict [("random_state", VInt 0)]))
         1
         (Request "cuml.datasets.classification.make_classification" []
            (dict [("n_classes", VInt 2); ("n_features", VInt 10);
                   ("n_samples", VInt 100000); ("random_state", VInt 0)]))
         0),
      (Evaluation "sklearn.metrics.accuracy_score"
         (Request "sklearn.ensemble.RandomForestClassifier" []
            (dict [("n_estimators", VInt 25); ("max_depth", VInt 10);
                   ("random_state", VInt 0)]))
         (Request "sklearn.model_selection.train_test_split" [VRes 17; VRes 18]
            (dict [("random_state", VInt 0)]))
         19
         (Request "cuml.datasets.classification.make_classification" []
            (dict [("n_classes", VInt 2); ("n_features", VInt 10);
                   ("n_samples", VInt 100000); ("random_state", VInt 0)]))
         0).
    split; [by_computation|]. split; [by_computation|].
    split; [|reflexivity]. repeat split; by_computation.
  - exists (Evaluation "sklearn.metrics.accuracy_score"
         (Request "cuml.ensemble.RandomForestClassifier" []
            (dict [("n_estimators", VInt 25); ("max_depth", VInt 10);
                   ("random_state", VInt 0)]))
         (Request "cuml.model_selection.train_test_split" [VItem 0 0; VItem 0 1]
            (dict [("random_state", VInt 0)]))
         1
         (Request "cuml.datasets.classification.make_classification" []
            (dict [("n_classes", VInt 2); ("n_features", VInt 10);
                   ("n_samples", VInt 100000); ("random_state", VInt 0)]))
         0),
      (Evaluation "sklearn.metrics.accuracy_score"
         (Request "sklearn.ensemble.RandomForestClassifier" []
            (dict [("n_estimators", VInt 25); ("max_depth", VInt 10);
                   ("random_state", VInt 0)]))
         (Request "sklearn.model_selection.train_test_split" [VRes 17; VRes 18]
            (dict [("random_state", VInt 0)]))
         19
         (Request "cuml.datasets.classification.make_classification" []
            (dict [("n_classes", VInt 2); ("n_features", VInt 10);
                   ("n_samples", VInt 100000); ("random_state", VInt 0)]))
         0).
    split; [by_computation|]. split; [by_computation|].
    split; [|split; reflexivity]. repeat split; by_computation.
  - split; [by_computation|]. split; [by_computation|].
    exists (Evaluation "sklearn.metrics.r2_score"
         (Request "cuml.linear_model.LinearRegression" []
            (dict [("fit_intercept", VBool true); ("normalize", VBool true);
                   ("algorithm", VStr "eig")]))
         (Request "cuml.model_selection.train_test_split" [VItem 0 0; VItem 0 1]
            (dict [("train_size", VFloat (Dec 8 1)); ("random_state", VInt 10)]))
         6
         (Request "cuml.datasets.make_regression" []
            (dict [("n_samples", VInt 100000); ("n_features", VInt 256);
                   ("n_informative", VInt 70); ("random_state", VInt 123)]))
         0),
      (Evaluation "sklearn.metrics.r2_score"
         (Request "sklearn.linear_model.LinearRegression" [] ∅)
         (Request "sklearn.model_selection.train_test_split" [VRes 22; VRes 23]
            (dict [("train_size", VFloat (Dec 8 1)); ("random_state", VInt 10)]))
         24
         (Request "cuml.datasets.make_regression" []
            (dict [("n_samples", VInt 100000); ("n_features", VInt 256);
                   ("n_informative", VInt 70); ("random_state", VInt 123)]))
         21).
    split; [by_computation|]. split; [by_computation|].
    repeat (split; [by_computation|]).
    split.
    + apply Hne; by_computation.
    + intros (_ & _ & _ & E & _). revert E. apply Hne; by_computation.
Qed.

(** ** The generated regression data *)

(** X13: Whatever objects the stored run of cell 3 of the regression
    notebook printed, its first line shows, for the [shape] of the two
    components of the dataset that the first generator call returned, the
    text of the pairs [(100000, 256)] and [(100000, 1)], the second not
    the text of a flat [(100000,)], and for their [dtype] the text of
    [dtype('float32')]. *)
Theorem regression_printed_shapes (ρ : gmap nat pyval) :
  stdout ρ Regression.log_cuml = Some Regression.stdout_cuml →
  Regression.log !! 0%nat
    = Some (ECall (VLib "cuml.datasets.make_regression") []
              [("n_samples", VInt 100000); ("n_features", VInt 256);
               ("n_informative", VInt 70); ("random_state", VInt 123)]) ∧
  take 5 (drop 1 Regression.log)
    = [EAttr (VItem 0 0) "shape"; EAttr (VItem 0 1) "shape";
       EAttr (VItem 0 0) "dtype"; EAttr (VItem 0 1) "dtype";
       EPrint [VFmt [VStr "Shape of X_reg "; VRes 1; VStr " and y_reg ";
                     VRes 2; VStr " and Type "; VTuple [VRes 3; VRes 4];
                     VStr (" " +:+ nl)]]] ∧
  printed ρ 1 = Some (py_str (PTuple [PInt 100000; PInt 256])) ∧
  printed ρ 2 = Some (py_str (PTuple [PInt 100000; PInt 1])) ∧
  printed ρ 2 ≠ Some (py_str (PTuple [PInt 100000])) ∧
  py_repr <$> ρ !! 3%nat = Some (py_repr (PDtype "float32")) ∧
  py_repr <$> ρ !! 4%nat = Some (py_repr (PDtype "float32")).
Proof.
  intros Hc.
  repeat (split; [by_computation|]).
  read_output Hc.
  assert (printed ρ 2 = Some "(100000, 1)") as H2 by assumption.
  split; [assumption|]. split; [assumption|].
  split; [rewrite H2; intros [=]|]. split; assumption.
Qed.

Lemma regression_printed_shapes_witness :
  stdout Regression.observed Regression.log_cuml
    = Some Regression.stdout_cuml ∧
  Regression.log !! 0%nat
    = Some (ECall (VLib "cuml.datasets.make_regression") []
              [("n_samples", VInt 100000); ("n_features", VInt 256);
               ("n_informative", VInt 70); ("random_state", VInt 123)]) ∧
  take 5 (drop 1 Regression.log)
    = [EAttr (VItem 0 0) "shape"; EAttr (VItem 0 1) "shape";
       EAttr (VItem 0 0) "dtype"; EAttr (VItem 0 1) "dtype";
       EPrint [VFmt [VStr "Shape of X_reg "; VRes 1; VStr " and y_reg ";
                     VRes 2; VStr " and Type "; VTuple [VRes 3; VRes 4];
                     VStr (" " +:+ nl)]]] ∧
  printed Regression.observed 1 = Some (py_str (PTuple [PInt 100000; PInt 256])) ∧
  printed Regression.observed 2 = Some (py_str (PTuple [PInt 100000; PInt 1])) ∧
  printed Regression.observed 2 ≠ Some (py_str (PTuple [PInt 100000])) ∧
  py_repr <$> Regression.observed !! 3%nat = Some (py_repr (PDtype "float32")) ∧
  py_repr <$> Regression.observed !! 4%nat = Some (py_repr (PDtype "float32")).
Proof.
  split; [vm_compute; reflexivity|].
  apply (regression_printed_shapes Regression.observed); vm_compute; reflexivity.
Defined.

(** ** Scoring on either backend *)

(** X14: Each cuML cell scores the same held-out targets and predictions
    twice, with cuML's scoring function on the objects themselves and
    with scikit-learn's on their host copies; the accelerated scoring
    functions are called nowhere else.  Whatever objects the stored runs
    printed, the two scores are reported as different numbers, less than
    1e-7 apart: accuracy 0.9949600100517273 against 0.99496, R² 1.0
    against 0.999999999994969. *)
Theorem scorers_report_different_scores (ρc ρr : gmap nat pyval) :
  stdout ρc Classification.log_cuml = Some Classification.stdout_cuml →
  stdout ρr Regression.log_cuml = Some Regression.stdout_cuml →
  calls_to "cuml.metrics.accuracy_score" Classification.log
    = [(8%nat, [VItem 1 3; VRes 7], [])] ∧
  Classification.log !! 11%nat
    = Some (ECall (VLib "sklearn.metrics.accuracy_score")
              [VRes 9; VRes 10] []) ∧
  host_copy_of Classification.log (VRes 9) (VItem 1 3) = true ∧
  host_copy_of Classification.log (VRes 10) (VRes 7) = true ∧
  calls_to "cuml.metrics.r2_score" Regression.log
    = [(13%nat, [VItem 6 3; VRes 12], [])] ∧
  Regression.log !! 16%nat
    = Some (ECall (VLib "sklearn.metrics.r2_score") [VRes 14; VRes 15] []) ∧
  host_copy_of Regression.log (VRes 14) (VItem 6 3) = true ∧
  host_copy_of Regression.log (VRes 15) (VRes 12) = true ∧
  printed ρc 8 = Some "0.9949600100517273" ∧
  printed ρc 11 = Some "0.99496" ∧
  printed ρr 13 = Some "1.0" ∧
  printed ρr 16 = Some "0.999999999994969" ∧
  (∃ p q, reported ρc 8 = Some p ∧ reported ρc 11 = Some q ∧
          ¬ (p == q)%Q ∧ (Qabs (p - q) <= 1 # 10000000)%Q) ∧
  (∃ p q, reported ρr 13 = Some p ∧ reported ρr 16 = Some q ∧
          ¬ (p == q)%Q ∧ (Qabs (p - q) <= 1 # 10000000)%Q).
Proof.
  intros Hc Hr.
  repeat (split; [by_computation|]).
  read_output Hc. read_output Hr.
  assert (printed ρc 8 = Some "0.9949600100517273") as H8 by assumption.
  assert (printed ρc 11 = Some "0.99496") as H11 by assumption.
  assert (printed ρr 13 = Some "1.0") as H13 by assumption.
  assert (printed ρr 16 = Some "0.999999999994969") as H16 by assumption.
  repeat (split; [assumption|]).
  split; eexists; eexists; unfold reported;
    (split; [rewrite ?H8, ?H13; by_computation|]);
    (split; [rewrite ?H11, ?H16; by_computation|]);
    (split; [intros E; apply Qeq_bool_iff in E; vm_compute in E; discriminate
            | apply Qle_bool_iff; by_computation]).
Qed.

Lemma scorers_report_different_scores_witness :
  stdout Classification.observed Classification.log_cuml
    = Some Classification.stdout_cuml ∧
  stdout Regression.observed Regression.log_cuml
    = Some Regression.stdout_cuml ∧
  calls_to "cuml.metrics.accuracy_score" Classification.log
    = [(8%nat, [VItem 1 3; VRes 7], [])] ∧
  Classification.log !! 11%nat
    = Some (ECall (VLib "sklearn.metrics.accuracy_score")
              [VRes 9; VRes 10] []) ∧
  host_copy_of Classification.log (VRes 9) (VItem 1 3) = true ∧
  host_copy_of Classification.log (VRes 10) (VRes 7) = true ∧
  calls_to "cuml.metrics.r2_score" Regression.log
    = [(13%nat, [VItem 6 3; VRes 12], [])] ∧
  Regression.log !! 16%nat
    = Some (ECall (VLib "sklearn.metrics.r2_score") [VRes 14; VRes 15] []) ∧
  host_copy_of Regression.log (VRes 14) (VItem 6 3) = true ∧
  host_copy_of Regression.log (VRes 15) (VRes 12) = true ∧
  printed Classification.observed 8 = Some "0.9949600100517273" ∧
  printed Classification.observed 11 = Some "0.99496" ∧
  printed Regression.observed 13 = Some "1.0" ∧
  printed Regression.observed 16 = Some "0.999999999994969" ∧
  (∃ p q, reported Classification.observed 8 = Some p ∧
          reported Classification.observed 11 = Some q ∧
          ¬ (p == q)%Q ∧ (Qabs (p - q) <= 1 # 10000000)%Q) ∧
  (∃ p q, reported Regression.observed 13 = Some p ∧
          reported Regression.observed 16 = Some q ∧
          ¬ (p == q)%Q ∧ (Qabs (p - q) <= 1 # 10000000)%Q).
Proof.
  split; [vm_compute; reflexivity|].
  split; [vm_compute; reflexivity|].
  apply (scorers_report_different_scores
           Classification.observed Regression.observed);
    vm_compute; reflexivity.
Defined.

(** ** What the notebooks leave to the libraries *)

(** X12: The classification notebook saves to [RF.model] the object that
    [fit] returned and loads that file back into [loaded_model]; the
    loaded object has no other name and no request ever involves it, as
    callee, receiver, argument or printed value.  The regression notebook
    saves to [LR.model] the object that [fit] returned and never loads.
    Each notebook predicts twice, on the estimator constructed in the run
    or on what its [fit] returned. *)
Theorem persistence_calls :
  calls_to "joblib.dump" Classification.log
    = [(15%nat, [VRes 4; VStr "RF.model"], [])] ∧
  Classification.log !! 4%nat
    = Some (EMethod (VRes 2) "fit" [VItem 1 0; VItem 1 2] []) ∧
  calls_to "joblib.load" Classification.log
    = [(16%nat, [VStr "RF.model"], [])] ∧
  bound_to (names_of Classification.notebook) 16 = ["loaded_model"] ∧
  names_of Classification.notebook !! "loaded_model" = Some (VRes 16) ∧
  uses Classification.log 16 = [] ∧
  method_calls "predict" Classification.log
    = [(7%nat, VRes 2, [VItem 1 1]); (25%nat, VRes 20, [VItem 19 1])] ∧
  calls_to "joblib.dump" Regression.log
    = [(20%nat, [VRes 9; VStr "LR.model"], [])] ∧
  Regression.log !! 9%nat
    = Some (EMethod (VRes 7) "fit" [VItem 6 0; VItem 6 2] []) ∧
  calls_to "joblib.load" Regression.log = [] ∧
  names_of Regression.notebook !! "loaded_model" = None ∧
  method_calls "predict" Regression.log
    = [(12%nat, VRes 9, [VItem 6 1]); (30%nat, VRes 26, [VItem 24 1])].
Proof. repeat (split; [by_computation|]). by_computation. Qed.

(** The generators are only ever called with the literal parameters of
    the cells, which ask for fewer informative features than features. *)
Lemma generator_parameters :
  Forall (λ kw : gmap string value,
            kw !! "n_informative" = Some (VInt 70) ∧
            kw !! "n_features" = Some (VInt 256))
    (params_of "cuml.datasets.make_regression" Regression.log) ∧
  length (params_of "cuml.datasets.make_regression" Regression.log) = 2%nat ∧
  (70 <= 256)%Z.
Proof.
  split; [|split; [by_computation | lia]].
  assert (params_of "cuml.datasets.make_regression" Regression.log
          = replicate 2
              (dict [("n_samples", VInt 100000); ("n_features", VInt 256);
                     ("n_informative", VInt 70); ("random_state", VInt 123)]))
    as -> by by_computation.
  repeat constructor.
Qed.

(** ** Cells in a used kernel *)

Section related.
Context (σ : nat → nat) (b : nat) (pre : list event).

#[local] Abbreviation ρ := (rebase σ b (length pre)).
#[local] Abbreviation sim := (sim σ b pre).
#[local] Abbreviation related := (related σ b pre).
#[local] Abbreviation related_from := (related_from σ b pre).

Lemma sim_weaken (D D' : list string) k1 k2 :
  (∀ x, x ∈ D' → x ∈ D) → sim D k1 k2 → sim D' k1 k2.
Proof. intros HD [Hb Hn Ht]. split; auto. Qed.

Lemma related_weaken {A} `{Rename A} D D1 D2 (p1 p2 : M A) :
  (∀ x, x ∈ D2 → x ∈ D1) → related D D1 p1 p2 → related D D2 p1 p2.
Proof.
  intros HD Hp k1 k2 Hs. specialize (Hp k1 k2 Hs).
  destruct (p1 k1) as [e | [a k1']]; [exact Hp|].
  destruct Hp as (k2' & -> & Hs'). eauto using sim_weaken.
Qed.

Lemma related_ret {A} `{Rename A} D (a : A) :
  related D D (mret a) (mret (rename ρ a)).
Proof. intros k1 k2 Hs. simpl. eauto. Qed.

Lemma related_ret' {A} `{Rename A} D (a a' : A) :
  rename ρ a = a' → related D D (mret a) (mret a').
Proof. intros <-. apply related_ret. Qed.

Lemma related_raise {A} `{Rename A} D D' (e : pyerr) :
  related D D' (raise e : M A) (raise e).
Proof. intros k1 k2 Hs. reflexivity. Qed.

Lemma related_bind {A B} `{Rename A, Rename B} D D1 D2
    (m1 m2 : M A) (f1 f2 : A → M B) :
  related D D1 m1 m2 →
  (∀ a, related D1 D2 (f1 a) (f2 (rename ρ a))) →
  related D D2 (m1 ≫= f1) (m2 ≫= f2).
Proof.
  intros Hm Hf k1 k2 Hs. unfold mbind, M_bind.
  specialize (Hm k1 k2 Hs).
  destruct (m1 k1) as [e | [a k1']].
  - by rewrite Hm.
  - destruct Hm as (k2' & -> & Hs'). apply (Hf a k1' k2' Hs').
Qed.

(** Along a run that is known: what follows a statement only matters
    from the kernel that the statement leaves, and not at all when the
    statement raises. *)
Lemma related_from_seq {A} `{Rename A} D D1 D2 k1 k1'
    (s : M unit) (r1 r2 : M A) :
  related D D1 s s → s k1 = inr ((), k1') →
  related_from D1 D2 k1' r1 r2 →
  related_from D D2 k1 (s;; r1) (s;; r2).
Proof.
  intros Hs Hk Hr k2 Hk2. unfold mbind, M_bind.
  specialize (Hs k1 k2 Hk2). rewrite Hk in *.
  destruct Hs as (k2' & -> & Hk'). apply (Hr k2' Hk').
Qed.

Lemma related_from_seq_raise {A} `{Rename A} D D1 D2 k1 e
    (s : M unit) (r1 r2 : M A) :
  related D D1 s s → s k1 = inl e →
  related_from D D2 k1 (s;; r1) (s;; r2).
Proof.
  intros Hs Hk k2 Hk2. unfold mbind, M_bind.
  specialize (Hs k1 k2 Hk2). rewrite Hk in *. by rewrite Hs.
Qed.

Lemma related_emit D (e : event) :
  related D D (emit e) (emit (rename_event ρ e)).
Proof.
  intros k1 k2 [Hb Hn Ht]. simpl. eexists. split.
  - unfold emit. do 2 f_equal. unfold rename, rename_val; simpl. f_equal.
    rewrite Ht, length_app, length_fmap, length_drop.
    unfold rebase. case_decide; lia.
  - split; simpl.
    + rewrite length_app. lia.
    + exact Hn.
    + rewrite Ht, drop_app_le by exact Hb.
      by rewrite fmap_app, app_assoc.
Qed.

Lemma related_bind_name D (x : string) (v : value) :
  related D (x :: D) (bind_name x v) (bind_name x (rename_value ρ v)).
Proof.
  intros k1 k2 [Hb Hn Ht]. simpl. eexists. split; [reflexivity|].
  split; simpl; [exact Hb | | exact Ht].
  intros y Hy. destruct (decide (x = y)) as [->|Hne].
  - by rewrite !lookup_insert_eq.
  - rewrite !lookup_insert_ne by done. apply Hn.
    apply elem_of_cons in Hy as [->|]; [done | assumption].
Qed.

Lemma related_var D (x : string) : x ∈ D → related D D (var x) (var x).
Proof.
  intros Hx k1 k2 Hs. unfold var. rewrite (sim_names _ _ _ _ _ _ Hs x Hx).
  destruct (ns k1 !! x) as [v|]; simpl; eauto.
Qed.

Lemma related_eval_list {A} `{Rename A} D (es : list (M A)) :
  Forall (λ e, related D D e e) es → related D D (eval_list es) (eval_list es).
Proof.
  induction 1 as [|e es He _ IH]; simpl.
  - by apply related_ret'.
  - eapply related_bind; [exact He|]. intros v.
    eapply related_bind; [exact IH|]. intros vs.
    by apply related_ret'.
Qed.

Lemma related_eval_kwargs D (kws : list (string * M value)) :
  Forall (λ kw, related D D kw.2 kw.2) kws →
  related D D (eval_kwargs kws) (eval_kwargs kws).
Proof.
  intros H. apply related_eval_list. rewrite Forall_fmap.
  eapply Forall_impl; [exact H|]. intros [x e] He; simpl in *.
  eapply related_bind; [exact He|]. intros v. by apply related_ret'.
Qed.

Ltac related_leaf :=
  first [ apply related_raise
        | apply related_emit
        | by apply related_ret' ].

Lemma related_attr D (e : M value) (a : string) :
  related D D e e → related D D (attr e a) (attr e a).
Proof.
  intros He. eapply related_bind; [exact He|]. intros []; related_leaf.
Qed.

Lemma related_call D f args kwargs :
  related D D f f → Forall (λ e, related D D e e) args →
  Forall (λ kw, related D D kw.2 kw.2) kwargs →
  related D D (call f args kwargs) (call f args kwargs).
Proof.
  intros Hf Ha Hk. eapply related_bind; [exact Hf|]. intros fv.
  eapply related_bind; [by apply related_eval_list|]. intros vs.
  eapply related_bind; [by apply related_eval_kwargs|]. intros ks.
  destruct fv; related_leaf.
Qed.

Lemma related_callm D e m args kwargs :
  related D D e e → Forall (λ e, related D D e e) args →
  Forall (λ kw, related D D kw.2 kw.2) kwargs →
  related D D (callm e m args kwargs) (callm e m args kwargs).
Proof.
  intros He Ha Hk. eapply related_bind; [exact He|]. intros v.
  eapply (related_bind D D D); [destruct v; related_leaf|]. intros _.
  eapply related_bind; [by apply related_eval_list|]. intros vs.
  eapply related_bind; [by apply related_eval_kwargs|]. intros ks.
  destruct v; related_leaf.
Qed.

Lemma related_sub D e1 e2 :
  related D D e1 e1 → related D D e2 e2 → related D D (sub e1 e2) (sub e1 e2).
Proof.
  intros H1 H2. eapply related_bind; [exact H1|]. intros x.
  eapply related_bind; [exact H2|]. intros y.
  destruct x, y; related_leaf.
Qed.

Lemma related_tuple D es :
  Forall (λ e, related D D e e) es → related D D (tuple es) (tuple es).
Proof.
  intros H. eapply related_bind; [by apply related_eval_list|].
  intros vs. by apply related_ret'.
Qed.

Lemma related_fstring D es :
  Forall (λ e, related D D e e) es → related D D (fstring es) (fstring es).
Proof.
  intros H. eapply related_bind; [by apply related_eval_list|].
  intros vs. by apply related_ret'.
Qed.

Lemma related_literal D (v : value) :
  rename_value ρ v = v → related D D (mret v) (mret v).
Proof. apply related_ret'. Qed.

Lemma related_assign D x e :
  related D D e e → related D (x :: D) (assign x e) (assign x e).
Proof.
  intros H. eapply related_bind; [exact H|]. intros v. apply related_bind_name.
Qed.

Lemma related_bind_names D xs vs :
  related D (xs ++ D)%list (bind_names xs vs)
    (bind_names xs (rename_value ρ <$> vs)).
Proof.
  revert D vs. induction xs as [|x xs IH]; intros D [|v vs]; simpl;
    try apply related_raise.
  - by apply related_ret'.
  - eapply related_bind; [apply related_bind_name|]. intros _.
    eapply related_weaken; [|apply IH].
    intros y. rewrite !elem_of_cons, !elem_of_app, elem_of_cons. tauto.
Qed.

Lemma related_unpack D xs e :
  related D D e e → related D (xs ++ D)%list (unpack xs e) (unpack xs e).
Proof.
  intros H. eapply related_bind; [exact H|].
  intros []; try apply related_raise.
  - simpl. replace (VItem (ρ h) <$> seq 0 (length xs))
      with (rename_value ρ <$> (VItem h <$> seq 0 (length xs))).
    + apply related_bind_names.
    + rewrite <- list_fmap_compose. reflexivity.
  - apply related_bind_names.
Qed.

Lemma related_expr D e : related D D e e → related D D (expr e) (expr e).
Proof.
  intros H. eapply related_bind; [exact H|]. intros _. by apply related_ret'.
Qed.

Lemma related_builtin D (x : string) :
  x ∈ D → related D D (builtin x) (builtin x).
Proof.
  intros Hx k1 k2 Hs. unfold builtin. rewrite (sim_names _ _ _ _ _ _ Hs x Hx).
  destruct (ns k1 !! x) as [v|]; simpl; eauto.
Qed.

Lemma related_print D args :
  "print" ∈ D → Forall (λ e, related D D e e) args →
  related D D (print args) (print args).
Proof.
  intros Hp H. eapply related_bind; [by apply related_builtin|]. intros fv.
  eapply related_bind; [by apply related_eval_list|]. intros vs.
  eapply (related_bind D D D); [|intros _; by apply related_ret'].
  destruct fv; try related_leaf. simpl. case_decide; related_leaf.
Qed.

Lemma related_import D m : related D (m :: D) (import m) (import m).
Proof. apply (related_bind_name D m (VLib m)). Qed.

Lemma related_import_as D m a : related D (a :: D) (import_as m a) (import_as m a).
Proof. apply (related_bind_name D a (VLib m)). Qed.

Lemma related_from_import_as D m n a :
  related D (a :: D) (from_import_as m n a) (from_import_as m n a).
Proof. apply (related_bind_name D a (VLib (dotted m n))). Qed.

Lemma related_from_import D m names :
  related D (names ++ D)%list (from_import m names) (from_import m names).
Proof.
  revert D. induction names as [|n names IH]; intros D; simpl.
  - by apply related_ret'.
  - eapply related_bind; [apply (related_bind_name D n (VLib (dotted m n)))|].
    intros _. eapply related_weaken; [|apply IH].
    intros y. rewrite !elem_of_cons, !elem_of_app, elem_of_cons. tauto.
Qed.

Lemma related_from_of {A} `{Rename A} D D' k1 (p1 p2 : M A) :
  related D D' p1 p2 → related_from D D' k1 p1 p2.
Proof. intros Hp. apply Hp. Qed.

End related.

(** From a kernel related to the start of a known run, a program ends
    as the known run does: with the same error, or having logged the same
    requests, renamed, after the log it found. *)
Lemma related_from_run σ b pre D D' k1 k2 (p : M unit) k1' log :
  related_from σ b pre D D' k1 p p → sim σ b pre D k1 k2 →
  p k1 = inr ((), k1') → drop b (trace k1') = log →
  ∃ k2', p k2 = inr ((), k2') ∧
    trace k2' = (pre ++ (rename_event (rebase σ b (length pre)) <$> log))%list ∧
    ∀ x, x ∈ D' →
      ns k2' !! x = rename_value (rebase σ b (length pre)) <$> ns k1' !! x.
Proof.
  intros Hp Hs Hr <-. specialize (Hp k2 Hs). rewrite Hr in Hp.
  destruct Hp as (k2' & Hk & [_ Hn Ht]). eauto.
Qed.

Lemma related_from_error σ b pre D D' k1 k2 (p : M unit) e :
  related_from σ b pre D D' k1 p p → sim σ b pre D k1 k2 →
  p k1 = inl e → p k2 = inl e.
Proof. intros Hp Hs Hr. specialize (Hp k2 Hs). by rewrite Hr in Hp. Qed.

(** A kernel is related to the end of a known run when it binds the
    names of interest as that run left them, up to renaming. *)
Lemma sim_start σ b D k1 k2 :
  length (trace k1) = b →
  (∀ x, x ∈ D →
     ns k2 !! x = rename_value (rebase σ b (length (trace k2))) <$> ns k1 !! x) →
  sim σ b (trace k2) D k1 k2.
Proof.
  intros <- Hn. split; [lia | exact Hn |].
  by rewrite drop_all, app_nil_r.
Qed.

Ltac in_names := apply (bool_decide_unpack _); vm_compute; exact I.

Ltac rel_expr :=
  lazymatch goal with
  | |- related _ _ _ _ _ (var _) _ => apply related_var; in_names
  | |- related _ _ _ _ _ (attr _ _) _ => apply related_attr; rel_expr
  | |- related _ _ _ _ _ (call _ _ _) _ =>
      apply related_call; [rel_expr | rel_list | rel_kwargs]
  | |- related _ _ _ _ _ (callm _ _ _ _) _ =>
      apply related_callm; [rel_expr | rel_list | rel_kwargs]
  | |- related _ _ _ _ _ (sub _ _) _ => apply related_sub; rel_expr
  | |- related _ _ _ _ _ (tuple _) _ => apply related_tuple; rel_list
  | |- related _ _ _ _ _ (fstring _) _ => apply related_fstring; rel_list
  | |- related _ _ _ _ _ _ _ => by apply related_literal
  end
with rel_list :=
  lazymatch goal with
  | |- Forall _ [] => apply Forall_nil_2
  | |- Forall _ (_ :: _) => apply Forall_cons_2; [rel_expr | rel_list]
  end
with rel_kwargs :=
  lazymatch goal with
  | |- Forall _ [] => apply Forall_nil_2
  | |- Forall _ (_ :: _) => apply Forall_cons_2; [simpl; rel_expr | rel_kwargs]
  end.

Ltac rel_stmt :=
  lazymatch goal with
  | |- related _ _ _ _ _ (assign _ _) _ => eapply related_assign; rel_expr
  | |- related _ _ _ _ _ (unpack _ _) _ => eapply related_unpack; rel_expr
  | |- related _ _ _ _ _ (expr _) _ => eapply related_expr; rel_expr
  | |- related _ _ _ _ _ (print _) _ =>
      eapply related_print; [in_names | rel_list]
  | |- related _ _ _ _ _ (import _) _ => eapply related_import
  | |- related _ _ _ _ _ (import_as _ _) _ => eapply related_import_as
  | |- related _ _ _ _ _ (from_import _ _) _ => eapply related_from_import
  | |- related _ _ _ _ _ (from_import_as _ _ _) _ =>
      eapply related_from_import_as
  end.

(** Follow the known run statement by statement; past a statement that
    raised there is nothing left to relate. *)
Ltac rel_cell :=
  lazymatch goal with
  | |- related_from _ _ _ _ _ ?k1 (?s ≫= _) (_ ≫= _) =>
      let r := eval vm_compute in
        (match s k1 with
         | inl e => inl e
         | inr (_, k) => inr (map_to_list (ns k), trace k)
         end) in
      lazymatch r with
      | inr (?l, ?t) =>
          eapply (related_from_seq _ _ _ _ _ _ k1 (Kernel (list_to_map l) t));
          [ rel_stmt
          | vm_cast_no_check (eq_refl (inr ((), Kernel (list_to_map l) t)
                                       : pyerr + unit * kernel))
          | rel_cell ]
      | inl ?e =>
          eapply (related_from_seq_raise _ _ _ _ _ _ k1 e);
          [ rel_stmt
          | vm_cast_no_check (eq_refl (inl e : pyerr + unit * kernel)) ]
      end
  | |- related_from _ _ _ _ _ _ _ _ => apply related_from_of; rel_stmt
  end.

(** Relate a sequence of statements, or of cells, to itself, whatever the
    run. *)
Ltac rel_block :=
  lazymatch goal with
  | |- related _ _ _ _ _ (_ ≫= _) _ =>
      eapply related_bind; [ rel_item | intros ?; cbv beta; rel_block ]
  | |- related _ _ _ _ _ _ _ => rel_item
  end
with rel_item :=
  lazymatch goal with
  | |- related _ _ _ _ _ (_ ≫= _) _ => rel_block
  | |- related _ _ _ _ _ (mret ()) _ => by apply related_ret'
  | |- related _ _ _ _ _ _ _ => rel_stmt
  end.

(** *** The whole notebooks *)

Ltac names_agree :=
  let x := fresh "x" in
  let Hx := fresh "Hx" in
  intros x Hx;
  repeat (apply elem_of_cons in Hx as [-> | Hx]);
  [ .. | by apply elem_of_nil in Hx ];
  match goal with
  | H : ns ?k !! ?y = _ |- ns ?k !! ?y = _ => rewrite H
  end; by_computation.

(** X1: From any kernel that leaves [print] to the builtins, whatever
    else it binds and whatever it has logged, the classification notebook
    run from its first cell to its last looks up no name that is unbound
    and calls or unpacks nothing that cannot be: as long as the libraries
    answer, it asks of them exactly what it asks in a fresh kernel, in the
    same order, of the objects made [length (trace k)] entries later. *)
Theorem classification_notebook_any_kernel (k : kernel) :
  ns k !! "print" = None →
  ∃ k', Classification.notebook k = inr ((), k') ∧
    trace k' = (trace k ++ (rename_event (rebase id 0 (length (trace k)))
                             <$> Classification.log))%list.
Proof.
  intros H0.
  assert (sim id 0 (trace k) ["print"] fresh_kernel k) as Hs.
  { apply (sim_start id 0 ["print"] fresh_kernel k);
      [reflexivity | names_agree]. }
  assert (∃ D', related id 0 (trace k) ["print"] D'
                  Classification.notebook Classification.notebook) as [D' Hr].
  { eexists. unfold Classification.notebook, Classification.cell_imports,
      Classification.cell_cuml, Classification.cell_sklearn. rel_block. }
  destruct (related_from_run id 0 (trace k) ["print"] D' fresh_kernel k
              Classification.notebook (kernel_after Classification.notebook)
              Classification.log (Hr fresh_kernel) Hs)
    as (k' & Hk & Ht & _); [by_computation | by_computation |].
  exists k'. split; [exact Hk | exact Ht].
Qed.

Lemma classification_notebook_any_kernel_witness :
  ns regression_final !! "print" = None ∧
  ∃ k', Classification.notebook regression_final = inr ((), k') ∧
    trace k' = (trace regression_final ++
                (rename_event (rebase id 0 (length (trace regression_final)))
                   <$> Classification.log))%list.
Proof.
  split; [vm_compute; reflexivity|].
  apply (classification_notebook_any_kernel regression_final);
    vm_compute; reflexivity.
Defined.

(** X2: The same, for the regression notebook and its five cells. *)
Theorem regression_notebook_any_kernel (k : kernel) :
  ns k !! "print" = None →
  ∃ k', Regression.notebook k = inr ((), k') ∧
    trace k' = (trace k ++ (rename_event (rebase id 0 (length (trace k)))
                             <$> Regression.log))%list.
Proof.
  intros H0.
  assert (sim id 0 (trace k) ["print"] fresh_kernel k) as Hs.
  { apply (sim_start id 0 ["print"] fresh_kernel k);
      [reflexivity | names_agree]. }
  assert (∃ D', related id 0 (trace k) ["print"] D'
                  Regression.notebook Regression.notebook) as [D' Hr].
  { eexists. unfold Regression.notebook, Regression.cell_imports,
      Regression.cell_imports_cuml, Regression.cell_cuml,
      Regression.cell_sklearn, Regression.cell_empty. rel_block. }
  destruct (related_from_run id 0 (trace k) ["print"] D' fresh_kernel k
              Regression.notebook (kernel_after Regression.notebook)
              Regression.log (Hr fresh_kernel) Hs)
    as (k' & Hk & Ht & _); [by_computation | by_computation |].
  exists k'. split; [exact Hk | exact Ht].
Qed.

Lemma regression_notebook_any_kernel_witness :
  ns classification_final !! "print" = None ∧
  ∃ k', Regression.notebook classification_final = inr ((), k') ∧
    trace k' = (trace classification_final ++
                (rename_event
                   (rebase id 0 (length (trace classification_final)))
                   <$> Regression.log))%list.
Proof.
  split; [vm_compute; reflexivity|].
  apply (regression_notebook_any_kernel classification_final);
    vm_compute; reflexivity.
Defined.

(** *** One cell at a time *)

(** X3: In any kernel that leaves [print] to the builtins and binds
    [cuml], [asnumpy], [dump] and [load] as cell 1 binds them, whatever
    else is bound or logged, cell 2 of the classification notebook looks
    up no unbound name: as long as the libraries answer, it asks exactly
    the requests of its run in the notebook, of the objects made
    [length (trace k)] entries later, and leaves in [X] and [y] the two
    components of the dataset it generated itself. *)
Theorem classification_cell_cuml_any_kernel (k : kernel) :
  ns k !! "print" = None →
  ns k !! "cuml" = Some (VLib "cuml") →
  ns k !! "asnumpy" = Some (VLib "cupy.asnumpy") →
  ns k !! "dump" = Some (VLib "joblib.dump") →
  ns k !! "load" = Some (VLib "joblib.load") →
  ∃ k', Classification.cell_cuml k = inr ((), k') ∧
    trace k' = (trace k ++ (rename_event (rebase id 0 (length (trace k)))
                             <$> Classification.log_cuml))%list ∧
    ns k' !! "X" = Some (VItem (length (trace k)) 0) ∧
    ns k' !! "y" = Some (VItem (length (trace k)) 1).
Proof.
  intros H0 H1 H2 H3 H4.
  pose (D := ["print"; "cuml"; "asnumpy"; "dump"; "load"]).
  pose (k1 := kernel_after Classification.cell_imports).
  assert (sim id 0 (trace k) D k1 k) as Hs.
  { apply (sim_start id 0 D k1 k); [by_computation | names_agree]. }
  assert (∃ D', related_from id 0 (trace k) D D' k1
                  Classification.cell_cuml Classification.cell_cuml ∧
                "X" ∈ D' ∧ "y" ∈ D') as (D' & Hr & HX & Hy).
  { eexists. split; [|split].
    - unfold Classification.cell_cuml. subst k1 D. rel_cell.
    - in_names.
    - in_names. }
  destruct (related_from_run id 0 (trace k) D D' k1 k Classification.cell_cuml
              (kernel_after (Classification.cell_imports;;
                             Classification.cell_cuml))
              Classification.log_cuml Hr Hs)
    as (k' & Hk & Ht & Hn); [by_computation | by_computation |].
  exists k'. split; [exact Hk|]. split; [exact Ht|].
  rewrite (Hn "X" HX), (Hn "y" Hy). split; by_computation.
Qed.

Lemma classification_cell_cuml_any_kernel_witness :
  ns classification_final !! "print" = None ∧
  ns classification_final !! "cuml" = Some (VLib "cuml") ∧
  ns classification_final !! "asnumpy" = Some (VLib "cupy.asnumpy") ∧
  ns classification_final !! "dump" = Some (VLib "joblib.dump") ∧
  ns classification_final !! "load" = Some (VLib "joblib.load") ∧
  ∃ k', Classification.cell_cuml classification_final = inr ((), k') ∧
    trace k' = (trace classification_final ++
                (rename_event (rebase id 0 (length (trace classification_final)))
                   <$> Classification.log_cuml))%list ∧
    ns k' !! "X" = Some (VItem (length (trace classification_final)) 0) ∧
    ns k' !! "y" = Some (VItem (length (trace classification_final)) 1).
Proof.
  repeat (split; [vm_compute; reflexivity|]).
  apply (classification_cell_cuml_any_kernel classification_final);
    vm_compute; reflexivity.
Defined.

(** X4: In any kernel that leaves [print] to the builtins, where
    [asnumpy] is cupy's and [X] and [y] are the two components of one
    earlier result [g], cell 3 of the classification notebook looks up no
    unbound name: as long as the libraries answer, it asks exactly the
    requests of its run in the notebook, of [g] where that run speaks of
    the generated dataset, and of the objects it makes itself, which come
    after the log it found. *)
Theorem classification_cell_sklearn_any_kernel (k : kernel) (g : nat) :
  ns k !! "print" = None →
  ns k !! "asnumpy" = Some (VLib "cupy.asnumpy") →
  ns k !! "X" = Some (VItem g 0) →
  ns k !! "y" = Some (VItem g 1) →
  ∃ k', Classification.cell_sklearn k = inr ((), k') ∧
    trace k' = (trace k ++
                (rename_event (rebase (λ _, g) 17 (length (trace k)))
                   <$> Classification.log_sklearn))%list.
Proof.
  intros H0 H1 H2 H3.
  pose (D := ["print"; "asnumpy"; "X"; "y"]).
  pose (k1 := kernel_after (Classification.cell_imports;;
                            Classification.cell_cuml)).
  assert (sim (λ _, g) 17 (trace k) D k1 k) as Hs.
  { apply (sim_start (λ _, g) 17 D k1 k); [by_computation | names_agree]. }
  assert (∃ D', related_from (λ _, g) 17 (trace k) D D' k1
                  Classification.cell_sklearn Classification.cell_sklearn)
    as (D' & Hr).
  { eexists. unfold Classification.cell_sklearn. subst k1 D. rel_cell. }
  destruct (related_from_run (λ _, g) 17 (trace k) D D' k1 k
              Classification.cell_sklearn
              (kernel_after ((Classification.cell_imports;;
                              Classification.cell_cuml);;
                             Classification.cell_sklearn))
              Classification.log_sklearn Hr Hs)
    as (k' & Hk & Ht & _); [by_computation | by_computation |].
  exists k'. split; [exact Hk | exact Ht].
Qed.

Lemma classification_cell_sklearn_any_kernel_witness :
  ns classification_final !! "print" = None ∧
  ns classification_final !! "asnumpy" = Some (VLib "cupy.asnumpy") ∧
  ns classification_final !! "X" = Some (VItem 0 0) ∧
  ns classification_final !! "y" = Some (VItem 0 1) ∧
  ∃ k', Classification.cell_sklearn classification_final = inr ((), k') ∧
    trace k' = (trace classification_final ++
                (rename_event
                   (rebase (λ _, 0%nat) 17 (length (trace classification_final)))
                   <$> Classification.log_sklearn))%list.
Proof.
  repeat (split; [vm_compute; reflexivity|]).
  apply (classification_cell_sklearn_any_kernel classification_final 0);
    vm_compute; reflexivity.
Defined.

(** X5: In any kernel that leaves [print] to the builtins and binds the
    names of cells 1 and 2 as those cells bind them, cell 3 of the
    regression notebook looks up no unbound name: as long as the
    libraries answer, it asks exactly the requests of its run in the
    notebook, of the objects made [length (trace k)] entries later. *)
Theorem regression_cell_cuml_any_kernel (k : kernel) :
  ns k !! "print" = None →
  ns k !! "cuml" = Some (VLib "cuml") →
  ns k !! "asnumpy" = Some (VLib "cupy.asnumpy") →
  ns k !! "dump" = Some (VLib "joblib.dump") →
  ns k !! "make_regression" = Some (VLib "cuml.datasets.make_regression") →
  ns k !! "train_test_split"
    = Some (VLib "cuml.model_selection.train_test_split") →
  ns k !! "cuLR" = Some (VLib "cuml.linear_model.LinearRegression") →
  ns k !! "r2_score" = Some (VLib "sklearn.metrics.r2_score") →
  ∃ k', Regression.cell_cuml k = inr ((), k') ∧
    trace k' = (trace k ++ (rename_event (rebase id 0 (length (trace k)))
                             <$> Regression.log_cuml))%list.
Proof.
  intros H0 H1 H2 H3 H4 H5 H6 H7.
  pose (D := ["print"; "cuml"; "asnumpy"; "dump"; "make_regression";
              "train_test_split"; "cuLR"; "r2_score"]).
  pose (k1 := kernel_after (Regression.cell_imports;;
                            Regression.cell_imports_cuml)).
  assert (sim id 0 (trace k) D k1 k) as Hs.
  { apply (sim_start id 0 D k1 k); [by_computation | names_agree]. }
  assert (∃ D', related_from id 0 (trace k) D D' k1
                  Regression.cell_cuml Regression.cell_cuml) as (D' & Hr).
  { eexists. unfold Regression.cell_cuml. subst k1 D. rel_cell. }
  destruct (related_from_run id 0 (trace k) D D' k1 k Regression.cell_cuml
              (kernel_after ((Regression.cell_imports;;
                              Regression.cell_imports_cuml);;
                             Regression.cell_cuml))
              Regression.log_cuml Hr Hs)
    as (k' & Hk & Ht & _); [by_computation | by_computation |].
  exists k'. split; [exact Hk | exact Ht].
Qed.

Lemma regression_cell_cuml_any_kernel_witness :
  ns regression_after_cuml !! "print" = None ∧
  ns regression_after_cuml !! "cuml" = Some (VLib "cuml") ∧
  ns regression_after_cuml !! "asnumpy" = Some (VLib "cupy.asnumpy") ∧
  ns regression_after_cuml !! "dump" = Some (VLib "joblib.dump") ∧
  ns regression_after_cuml !! "make_regression"
    = Some (VLib "cuml.datasets.make_regression") ∧
  ns regression_after_cuml !! "train_test_split"
    = Some (VLib "cuml.model_selection.train_test_split") ∧
  ns regression_after_cuml !! "cuLR"
    = Some (VLib "cuml.linear_model.LinearRegression") ∧
  ns regression_after_cuml !! "r2_score"
    = Some (VLib "sklearn.metrics.r2_score") ∧
  ∃ k', Regression.cell_cuml regression_after_cuml = inr ((), k') ∧
    trace k' = (trace regression_after_cuml ++
                (rename_event
                   (rebase id 0 (length (trace regression_after_cuml)))
                   <$> Regression.log_cuml))%list.
Proof.
  repeat (split; [vm_compute; reflexivity|]).
  apply (regression_cell_cuml_any_kernel regression_after_cuml);
    vm_compute; reflexivity.
Defined.

(** X6: Cell 4 of the regression notebook needs two names only, the
    generator of cell 2 and [asnumpy] of cell 1, and nothing that cell 3
    computed: in any kernel that binds these two and leaves [print] to the
    builtins it looks up no unbound name and, as long as the libraries
    answer, asks exactly the requests of its run in the notebook, of the
    objects it makes itself. *)
Theorem regression_cell_sklearn_any_kernel (k : kernel) :
  ns k !! "print" = None →
  ns k !! "make_regression" = Some (VLib "cuml.datasets.make_regression") →
  ns k !! "asnumpy" = Some (VLib "cupy.asnumpy") →
  ∃ k', Regression.cell_sklearn k = inr ((), k') ∧
    trace k' = (trace k ++ (rename_event (rebase id 21 (length (trace k)))
                             <$> Regression.log_sklearn))%list.
Proof.
  intros H0 H1 H2.
  pose (D := ["print"; "make_regression"; "asnumpy"]).
  assert (sim id 21 (trace k) D regression_after_cuml k) as Hs.
  { apply (sim_start id 21 D regression_after_cuml k);
      [by_computation | names_agree]. }
  assert (∃ D', related_from id 21 (trace k) D D' regression_after_cuml
                  Regression.cell_sklearn Regression.cell_sklearn)
    as (D' & Hr).
  { eexists. unfold Regression.cell_sklearn. subst D. rel_cell. }
  destruct (related_from_run id 21 (trace k) D D' regression_after_cuml k
              Regression.cell_sklearn
              (kernel_after ((Regression.cell_imports;;
                              Regression.cell_imports_cuml;;
                              Regression.cell_cuml);;
                             Regression.cell_sklearn))
              Regression.log_sklearn Hr Hs)
    as (k' & Hk & Ht & _); [by_computation | by_computation |].
  exists k'. split; [exact Hk | exact Ht].
Qed.

Lemma regression_cell_sklearn_any_kernel_witness :
  ns (kernel_after (Regression.cell_imports;; Regression.cell_imports_cuml))
    !! "print" = None ∧
  ns (kernel_after (Regression.cell_imports;; Regression.cell_imports_cuml))
    !! "make_regression" = Some (VLib "cuml.datasets.make_regression") ∧
  ns (kernel_after (Regression.cell_imports;; Regression.cell_imports_cuml))
    !! "asnumpy" = Some (VLib "cupy.asnumpy") ∧
  ∃ k', Regression.cell_sklearn
          (kernel_after (Regression.cell_imports;;
                         Regression.cell_imports_cuml)) = inr ((), k') ∧
    trace k' = (trace (kernel_after (Regression.cell_imports;;
                                     Regression.cell_imports_cuml)) ++
                (rename_event
                   (rebase id 21
                      (length (trace (kernel_after
                                        (Regression.cell_imports;;
                                         Regression.cell_imports_cuml)))))
                   <$> Regression.log_sklearn))%list.
Proof.
  repeat (split; [vm_compute; reflexivity|]).
  apply (regression_cell_sklearn_any_kernel
           (kernel_after (Regression.cell_imports;;
                          Regression.cell_imports_cuml)));
    vm_compute; reflexivity.
Defined.

(** *** A cell after the cell that rebinds its names *)

Lemma lookup_appended (pre log : list event) (ρ : nat → nat) i e e' :
  log !! i = Some e → rename_event ρ e = e' →
  (pre ++ (rename_event ρ <$> log))%list !! (i + length pre)%nat = Some e'.
Proof.
  intros Hi <-. rewrite lookup_app_r by lia.
  replace (i + length pre - length pre)%nat with i by lia.
  by rewrite list_lookup_fmap, Hi.
Qed.

(** X7: Cell 3 of the regression notebook splits with whatever
    [train_test_split] is bound to, and cell 4 rebinds that name to
    scikit-learn's. In any kernel that binds the names as the whole notebook
    leaves them, cell 3 generates a dataset with cuML as its first request
    and, once the six requests before it are answered, hands the two
    components of that dataset to scikit-learn's splitter as they are,
    with no host copy in between; the kernel stops it nowhere, so whether
    the run goes on from there is for scikit-learn to decide. *)
Theorem regression_cell_cuml_after_sklearn (k : kernel) :
  ns k !! "print" = None →
  ns k !! "cuml" = Some (VLib "cuml") →
  ns k !! "asnumpy" = Some (VLib "cupy.asnumpy") →
  ns k !! "dump" = Some (VLib "joblib.dump") →
  ns k !! "make_regression" = Some (VLib "cuml.datasets.make_regression") →
  ns k !! "train_test_split"
    = Some (VLib "sklearn.model_selection.train_test_split") →
  ns k !! "cuLR" = Some (VLib "cuml.linear_model.LinearRegression") →
  ns k !! "r2_score" = Some (VLib "sklearn.metrics.r2_score") →
  ∃ k', Regression.cell_cuml k = inr ((), k') ∧
    length (trace k') = (21 + length (trace k))%nat ∧
    trace k' !! (0 + length (trace k))%nat
      = Some (ECall (VLib "cuml.datasets.make_regression") []
                [("n_samples", VInt 100000); ("n_features", VInt 256);
                 ("n_informative", VInt 70); ("random_state", VInt 123)]) ∧
    trace k' !! (6 + length (trace k))%nat
      = Some (ECall (VLib "sklearn.model_selection.train_test_split")
                [VItem (length (trace k)) 0; VItem (length (trace k)) 1]
                [("train_size", VFloat (Dec 8 1)); ("random_state", VInt 10)]) ∧
    Forall (λ e, ∀ v, e ≠ ECall (VLib "cupy.asnumpy") [v] [])
      (take 7 (drop (length (trace k)) (trace k'))).
Proof.
  intros H0 H1 H2 H3 H4 H5 H6 H7.
  pose (D := ["print"; "cuml"; "asnumpy"; "dump"; "make_regression";
              "train_test_split"; "cuLR"; "r2_score"]).
  assert (sim id 34 (trace k) D regression_final k) as Hs.
  { apply (sim_start id 34 D regression_final k);
      [by_computation | names_agree]. }
  assert (∃ D', related_from id 34 (trace k) D D' regression_final
                  Regression.cell_cuml Regression.cell_cuml) as (D' & Hr).
  { eexists. unfold Regression.cell_cuml. subst D. rel_cell. }
  destruct (related_from_run id 34 (trace k) D D' regression_final k
              Regression.cell_cuml
              (kernel_after (Regression.notebook;; Regression.cell_cuml))
              (cell_log Regression.notebook Regression.cell_cuml) Hr Hs)
    as (k' & Hk & Ht & _); [by_computation | by_computation |].
  exists k'. split; [exact Hk|]. rewrite Ht. split; [|split; [|split]].
  - rewrite length_app, length_fmap.
    replace (length (cell_log Regression.notebook Regression.cell_cuml))
      with 21%nat by by_computation. lia.
  - eapply lookup_appended; by_computation.
  - eapply lookup_appended; by_computation.
  - rewrite drop_app_length, <- fmap_take.
    replace (take 7 (cell_log Regression.notebook Regression.cell_cuml))
      with [ECall (VLib "cuml.datasets.make_regression") []
              [("n_samples", VInt 100000); ("n_features", VInt 256);
               ("n_informative", VInt 70); ("random_state", VInt 123)];
            EAttr (VItem 34 0) "shape"; EAttr (VItem 34 1) "shape";
            EAttr (VItem 34 0) "dtype"; EAttr (VItem 34 1) "dtype";
            EPrint [VFmt [VStr "Shape of X_reg "; VRes 35;
                          VStr " and y_reg "; VRes 36; VStr " and Type ";
                          VTuple [VRes 37; VRes 38]; VStr (" " +:+ nl)]];
            ECall (VLib "sklearn.model_selection.train_test_split")
              [VItem 34 0; VItem 34 1]
              [("train_size", VFloat (Dec 8 1)); ("random_state", VInt 10)]]
      by by_computation.
    repeat constructor; intros v; discriminate.
Qed.

Lemma regression_cell_cuml_after_sklearn_witness :
  ns regression_final !! "print" = None ∧
  ns regression_final !! "cuml" = Some (VLib "cuml") ∧
  ns regression_final !! "asnumpy" = Some (VLib "cupy.asnumpy") ∧
  ns regression_final !! "dump" = Some (VLib "joblib.dump") ∧
  ns regression_final !! "make_regression"
    = Some (VLib "cuml.datasets.make_regression") ∧
  ns regression_final !! "train_test_split"
    = Some (VLib "sklearn.model_selection.train_test_split") ∧
  ns regression_final !! "cuLR"
    = Some (VLib "cuml.linear_model.LinearRegression") ∧
  ns regression_final !! "r2_score" = Some (VLib "sklearn.metrics.r2_score") ∧
  ∃ k', Regression.cell_cuml regression_final = inr ((), k') ∧
    length (trace k') = (21 + length (trace regression_final))%nat ∧
    trace k' !! (0 + length (trace regression_final))%nat
      = Some (ECall (VLib "cuml.datasets.make_regression") []
                [("n_samples", VInt 100000); ("n_features", VInt 256);
                 ("n_informative", VInt 70); ("random_state", VInt 123)]) ∧
    trace k' !! (6 + length (trace regression_final))%nat
      = Some (ECall (VLib "sklearn.model_selection.train_test_split")
                [VItem (length (trace regression_final)) 0;
                 VItem (length (trace regression_final)) 1]
                [("train_size", VFloat (Dec 8 1)); ("random_state", VInt 10)]) ∧
    Forall (λ e, ∀ v, e ≠ ECall (VLib "cupy.asnumpy") [v] [])
      (take 7 (drop (length (trace regression_final)) (trace k'))).
Proof.
  repeat (split; [vm_compute; reflexivity|]).
  apply (regression_cell_cuml_after_sklearn regression_final);
    vm_compute; reflexivity.
Defined.

(** *** Cells without the cells they depend on *)

(** X8: Cell 2 of the classification notebook imports what it trains with,
    but scores through the module [cuml] that only cell 1 imports: in any
    kernel that does not bind [cuml] it raises [NameError]. *)
Theorem classification_cell_cuml_needs_imports (k : kernel) :
  ns k !! "cuml" = None →
  Classification.cell_cuml k = inl (NameError "cuml").
Proof.
  intros H1.
  pose (D := ["cuml"]).
  assert (sim id 0 (trace k) D fresh_kernel k) as Hs.
  { apply (sim_start id 0 D fresh_kernel k); [by_computation | names_agree]. }
  assert (∃ D', related_from id 0 (trace k) D D' fresh_kernel
                  Classification.cell_cuml Classification.cell_cuml)
    as (D' & Hr).
  { exists []. unfold Classification.cell_cuml. subst D. rel_cell. }
  apply (related_from_error id 0 (trace k) D D' fresh_kernel k _ _ Hr Hs).
  by_computation.
Qed.

Lemma classification_cell_cuml_needs_imports_witness :
  ns (Kernel (delete "cuml" (ns classification_final))
        (trace classification_final)) !! "cuml" = None ∧
  Classification.cell_cuml
    (Kernel (delete "cuml" (ns classification_final))
       (trace classification_final)) = inl (NameError "cuml").
Proof.
  split; [vm_compute; reflexivity|].
  apply (classification_cell_cuml_needs_imports
           (Kernel (delete "cuml" (ns classification_final))
              (trace classification_final))).
  vm_compute; reflexivity.
Defined.

(** X9: Cell 3 of the classification notebook generates nothing: in any
    kernel where [asnumpy] is cupy's and cell 2 has left no [X] and no [y],
    it raises [NameError] on [X]. *)
Theorem classification_cell_sklearn_needs_data (k : kernel) :
  ns k !! "asnumpy" = Some (VLib "cupy.asnumpy") →
  ns k !! "X" = None →
  ns k !! "y" = None →
  Classification.cell_sklearn k = inl (NameError "X").
Proof.
  intros H1 H2 H3.
  pose (D := ["asnumpy"; "X"; "y"]).
  pose (k1 := kernel_after Classification.cell_imports).
  assert (sim id 0 (trace k) D k1 k) as Hs.
  { apply (sim_start id 0 D k1 k); [by_computation | names_agree]. }
  assert (∃ D', related_from id 0 (trace k) D D' k1
                  Classification.cell_sklearn Classification.cell_sklearn)
    as (D' & Hr).
  { exists []. unfold Classification.cell_sklearn. subst k1 D. rel_cell. }
  apply (related_from_error id 0 (trace k) D D' k1 k _ _ Hr Hs).
  by_computation.
Qed.

Lemma classification_cell_sklearn_needs_data_witness :
  ns (kernel_after Classification.cell_imports) !! "asnumpy"
    = Some (VLib "cupy.asnumpy") ∧
  ns (kernel_after Classification.cell_imports) !! "X" = None ∧
  ns (kernel_after Classification.cell_imports) !! "y" = None ∧
  Classification.cell_sklearn (kernel_after Classification.cell_imports)
    = inl (NameError "X").
Proof.
  repeat (split; [vm_compute; reflexivity|]).
  apply (classification_cell_sklearn_needs_data
           (kernel_after Classification.cell_imports));
    vm_compute; reflexivity.
Defined.

(** X10: Neither code cell of the regression notebook imports the generator:
    in any kernel that does not bind [make_regression], the cuML cell and
    the scikit-learn cell alike raise [NameError] on it. *)
Theorem regression_cells_need_generator (k : kernel) :
  ns k !! "make_regression" = None →
  Regression.cell_cuml k = inl (NameError "make_regression") ∧
  Regression.cell_sklearn k = inl (NameError "make_regression").
Proof.
  intros H1.
  pose (D := ["make_regression"]).
  assert (sim id 0 (trace k) D fresh_kernel k) as Hs.
  { apply (sim_start id 0 D fresh_kernel k); [by_computation | names_agree]. }
  split.
  - assert (∃ D', related_from id 0 (trace k) D D' fresh_kernel
                    Regression.cell_cuml Regression.cell_cuml) as (D' & Hr).
    { exists []. unfold Regression.cell_cuml. subst D. rel_cell. }
    apply (related_from_error id 0 (trace k) D D' fresh_kernel k _ _ Hr Hs).
    by_computation.
  - assert (∃ D', related_from id 0 (trace k) D D' fresh_kernel
                    Regression.cell_sklearn Regression.cell_sklearn)
      as (D' & Hr).
    { exists []. unfold Regression.cell_sklearn. subst D. rel_cell. }
    apply (related_from_error id 0 (trace k) D D' fresh_kernel k _ _ Hr Hs).
    by_computation.
Qed.

Lemma regression_cells_need_generator_witness :
  ns (kernel_after Regression.cell_imports) !! "make_regression" = None ∧
  Regression.cell_cuml (kernel_after Regression.cell_imports)
    = inl (NameError "make_regression") ∧
  Regression.cell_sklearn (kernel_after Regression.cell_imports)
    = inl (NameError "make_regression").
Proof.
  split; [vm_compute; reflexivity|].
  apply (regression_cells_need_generator
           (kernel_after Regression.cell_imports)).
  vm_compute; reflexivity.
Defined.

(** ** What reaches scikit-learn *)

(** In the fresh run of either notebook every object that a request hands
    to scikit-learn is host data, and requests do hand it objects: host
    copies, literals and what scikit-learn returned.  Run again after
    cell 4, cell 3 of the regression notebook breaks this; so would a
    model read back from a file. *)
Lemma scikit_learn_receives_host_data :
  sklearn_on_host Classification.log = true ∧
  sklearn_on_host Regression.log = true ∧
  concat (given_to_sklearn Classification.log <$> Classification.log)
    = [VRes 9; VRes 10; VRes 17; VRes 18; VInt 0; VInt 25; VInt 10; VInt 0;
       VItem 19 0; VItem 19 2; VItem 19 1; VItem 19 3; VRes 25] ∧
  concat (given_to_sklearn Regression.log <$> Regression.log)
    = [VRes 14; VRes 15; VRes 22; VRes 23; VFloat (Dec 8 1); VInt 10;
       VItem 24 0; VItem 24 2; VItem 24 1; VItem 24 3; VRes 30] ∧
  sklearn_on_host (log_of (Regression.notebook;; Regression.cell_cuml))
    = false ∧
  on_host Classification.log (VRes 16) = false.
Proof. repeat (split; [by_computation|]). by_computation. Qed.

(** ** Where objects were made, in a used kernel *)

Section maker.
Context (pre log : list event).

#[local] Abbreviation ρ0 := (rebase id 0 (length pre)).
#[local] Abbreviation tr' := (pre ++ (rename_event ρ0 <$> log))%list.

Lemma rebase_0 (h : nat) : ρ0 h = (h + length pre)%nat.
Proof. unfold rebase. case_decide; [lia|]. by rewrite Nat.sub_0_r. Qed.

Lemma lookup_rebased (h : nat) :
  tr' !! ρ0 h = rename_event ρ0 <$> log !! h.
Proof.
  rewrite rebase_0, lookup_app_r by lia.
  replace (h + length pre - length pre)%nat with h by lia.
  apply list_lookup_fmap.
Qed.

(** With the same fuel, the renamed object has the same maker. *)
Lemma maker_rebased (fuel : nat) (v : value) :
  maker fuel tr' (rename_value ρ0 v) = maker fuel log v.
Proof.
  revert v. induction fuel as [|fuel IH]; intros v; [reflexivity|].
  destruct v as [ | | | | | | h | h i | | ]; try reflexivity; simpl;
    rewrite lookup_rebased;
    (destruct (log !! h) as [[f args kws | recv m args kws | obj a | | ]|];
       simpl; try reflexivity; [destruct f; reflexivity | apply IH | apply IH]).
Qed.

End maker.

(** In a well-scoped log, fuel beyond the entry named is never used. *)
Lemma maker_fuel (tr : list event) :
  well_scoped tr = true →
  ∀ h fuel v, handle_of v = Some h → (h < fuel)%nat →
    maker fuel tr v = maker (S h) tr v.
Proof.
  intros Hws. unfold well_scoped in Hws. rewrite forallb_forall in Hws.
  induction h as [h IH] using lt_wf_ind. intros fuel v Hv Hf.
  destruct fuel as [|fuel]; [lia|].
  assert (∀ f, maker (S f) tr v
               = match tr !! h with
                 | Some (ECall (VLib q) _ _) => Some q
                 | Some (EMethod recv _ _ _) => maker f tr recv
                 | Some (EAttr obj _) => maker f tr obj
                 | _ => None
                 end) as Hunf.
  { intros f. destruct v; try discriminate; injection Hv as ->; reflexivity. }
  rewrite !Hunf. destruct (tr !! h) as [e|] eqn:Hh; [|reflexivity].
  assert (In (h, e) (indexed tr)) as Hin.
  { apply list_elem_of_In, list_elem_of_lookup. exists h.
    unfold indexed. by rewrite list_lookup_imap, Hh. }
  specialize (Hws _ Hin). simpl in Hws.
  assert (∀ obj, match handle_of obj with
                 | Some h' => bool_decide (h' < h)%nat
                 | None => true
                 end = true →
                 maker fuel tr obj = maker h tr obj) as Hobj.
  { intros obj Hs. destruct (handle_of obj) as [h'|] eqn:Ho.
    - apply bool_decide_eq_true in Hs.
      rewrite (IH h' Hs fuel obj Ho) by lia.
      by rewrite (IH h' Hs h obj Ho) by lia.
    - destruct obj; try discriminate; by destruct fuel, h. }
  destruct e as [f args kws | recv m args kws | obj a | | ];
    try reflexivity; by apply Hobj.
Qed.

Lemma maker_enough (tr : list event) (fuel : nat) (v : value) :
  well_scoped tr = true → (length tr ≤ fuel)%nat →
  maker fuel tr v = maker (length tr) tr v.
Proof.
  intros Hws Hf. destruct (handle_of v) as [h|] eqn:Hv.
  - destruct (decide (h < length tr)%nat) as [Hlt|Hge].
    + rewrite (maker_fuel tr Hws h fuel v Hv) by lia.
      by rewrite (maker_fuel tr Hws h (length tr) v Hv) by lia.
    + assert (tr !! h = None) as Hn by (apply lookup_ge_None; lia).
      destruct v; try discriminate; injection Hv as ->;
        destruct fuel, (length tr); simpl; rewrite ?Hn; try reflexivity; lia.
  - destruct v; try discriminate; by destruct fuel, (length tr).
Qed.

(** So an object of a run in a used kernel was made by the library that
    made it in the fresh run, and is host data if it was there. *)
Lemma made_by_rebased (lib : string) (pre log : list event) (v : value) :
  well_scoped log = true →
  made_by lib (pre ++ (rename_event (rebase id 0 (length pre)) <$> log))%list
    (rename_value (rebase id 0 (length pre)) v)
  = made_by lib log v.
Proof.
  intros Hws. unfold made_by. rewrite maker_rebased.
  rewrite (maker_enough log _ v Hws); [reflexivity|].
  rewrite length_app, length_fmap. lia.
Qed.

Lemma on_host_rebased (pre log : list event) (v : value) :
  well_scoped log = true →
  on_host (pre ++ (rename_event (rebase id 0 (length pre)) <$> log))%list
    (rename_value (rebase id 0 (length pre)) v)
  = on_host log v.
Proof.
  intros Hws.
  assert (maker (length (pre ++ (rename_event (rebase id 0 (length pre))
                                   <$> log))%list)
            (pre ++ (rename_event (rebase id 0 (length pre)) <$> log))%list
            (rename_value (rebase id 0 (length pre)) v)
          = maker (length log) log v) as Hm.
  { rewrite maker_rebased. apply (maker_enough log _ v Hws).
    rewrite length_app, length_fmap. lia. }
  destruct v; try reflexivity; unfold on_host;
    change (rename_value ?r (VRes ?h)) with (VRes (r h)) in *;
    change (rename_value ?r (VItem ?h ?i)) with (VItem (r h) i) in *;
    by rewrite Hm.
Qed.

Lemma given_to_sklearn_rebased (pre log : list event) (e : event) :
  well_scoped log = true →
  given_to_sklearn
    (pre ++ (rename_event (rebase id 0 (length pre)) <$> log))%list
    (rename_event (rebase id 0 (length pre)) e)
  = rename_value (rebase id 0 (length pre)) <$> given_to_sklearn log e.
Proof.
  intros Hws.
  destruct e as [f args kws | recv m args kws | obj a | | ]; try reflexivity.
  - destruct f; try reflexivity. simpl.
    destruct (String.prefix "sklearn." qualname); [|reflexivity].
    rewrite fmap_app. f_equal. unfold rename_kwargs.
    rewrite <- !list_fmap_compose. reflexivity.
  - simpl. rewrite made_by_rebased by exact Hws.
    destruct (made_by "sklearn." log recv); [|reflexivity].
    rewrite fmap_app. f_equal. unfold rename_kwargs.
    rewrite <- !list_fmap_compose. reflexivity.
Qed.

Lemma sklearn_on_host_rebased (pre log : list event) :
  well_scoped log = true →
  sklearn_on_host_from (length pre)
    (pre ++ (rename_event (rebase id 0 (length pre)) <$> log))%list
  = sklearn_on_host log.
Proof.
  intros Hws. unfold sklearn_on_host_from, sklearn_on_host.
  rewrite drop_app_length.
  assert (∀ l : list event,
    forallb (λ e, forallb
               (on_host
                  (pre ++ (rename_event (rebase id 0 (length pre)) <$> log))%list)
               (given_to_sklearn
                  (pre ++ (rename_event (rebase id 0 (length pre)) <$> log))%list
                  e))
      (rename_event (rebase id 0 (length pre)) <$> l)
    = forallb (λ e, forallb (on_host log) (given_to_sklearn log e)) l)
    as Hl; [|apply Hl].
  induction l as [|e l IH]; [reflexivity|].
  rewrite fmap_cons. simpl. rewrite IH. f_equal.
  rewrite given_to_sklearn_rebased by exact Hws.
  induction (given_to_sklearn log e) as [|v vs IHv]; [reflexivity|].
  rewrite fmap_cons. simpl. rewrite IHv.
  by rewrite on_host_rebased by exact Hws.
Qed.

Ltac run_notebook_from k nb log unf k' Hk Ht :=
  let Hs := fresh "Hs" in
  let Hr := fresh "Hr" in
  let D' := fresh "D" in
  assert (sim id 0 (trace k) ["print"] fresh_kernel k) as Hs
    by (apply (sim_start id 0 ["print"] fresh_kernel k);
        [reflexivity | names_agree]);
  assert (∃ D', related id 0 (trace k) ["print"] D' nb nb) as [D' Hr]
    by (eexists; unf; rel_block);
  destruct (related_from_run id 0 (trace k) ["print"] D' fresh_kernel k nb
              (kernel_after nb) log (Hr fresh_kernel) Hs)
    as (k' & Hk & Ht & _); [by_computation | by_computation |].

(** X11: From any kernel that leaves [print] to the builtins, in either
    notebook run from its first cell to its last, as long as the
    libraries answer, everything that a request of the run hands to
    scikit-learn (to a function of [sklearn], or to a method of an object
    that [sklearn] made) is host data: a literal, a host copy made by
    [asnumpy], or something that scikit-learn returned.  An object that
    cuML made, or one read back from a file, is not. *)
Theorem notebooks_keep_scikit_learn_on_host (k : kernel) :
  ns k !! "print" = None →
  (∃ k', Classification.notebook k = inr ((), k') ∧
     sklearn_on_host_from (length (trace k)) (trace k') = true) ∧
  (∃ k', Regression.notebook k = inr ((), k') ∧
     sklearn_on_host_from (length (trace k)) (trace k') = true).
Proof.
  intros H0. split.
  - run_notebook_from k Classification.notebook Classification.log
      ltac:(unfold Classification.notebook, Classification.cell_imports,
              Classification.cell_cuml, Classification.cell_sklearn)
      k' Hk Ht.
    exists k'. split; [exact Hk|]. rewrite Ht.
    rewrite sklearn_on_host_rebased by by_computation. by_computation.
  - run_notebook_from k Regression.notebook Regression.log
      ltac:(unfold Regression.notebook, Regression.cell_imports,
              Regression.cell_imports_cuml, Regression.cell_cuml,
              Regression.cell_sklearn, Regression.cell_empty)
      k' Hk Ht.
    exists k'. split; [exact Hk|]. rewrite Ht.
    rewrite sklearn_on_host_rebased by by_computation. by_computation.
Qed.

Lemma notebooks_keep_scikit_learn_on_host_witness :
  ns regression_final !! "print" = None ∧
  (∃ k', Classification.notebook regression_final = inr ((), k') ∧
     sklearn_on_host_from (length (trace regression_final)) (trace k')
       = true) ∧
  (∃ k', Regression.notebook regression_final = inr ((), k') ∧
     sklearn_on_host_from (length (trace regression_final)) (trace k')
       = true).
Proof.
  split; [vm_compute; reflexivity|].
  apply (notebooks_keep_scikit_learn_on_host regression_final);
    vm_compute; reflexivity.
Defined.
